(** * parliament: ARN glob matching and resource-type resolution

    A shallow embedding of [is_arn_match] and [get_resource_type_from_arn]
    from [parliament/__init__.py], with the Python primitives they rely on
    (string indexing and slicing, [str.split], [str.join], the [in]
    operator, [re.sub] for the two patterns used, exceptions, [print]). *)

From Stdlib Require Import String Ascii List ZArith Bool Lia.
Import ListNotations.

Local Open Scope string_scope.
Local Open Scope Z_scope.

(** ** Python values and primitives *)

Module Py.

(** Exceptions the code can raise: [Exception(msg)] from the two explicit
    [raise] statements, and [IndexError] from subscripting. *)
Inductive exn : Type :=
| Exception (msg : string)
| IndexError.

Inductive result (A : Type) : Type :=
| Ok (a : A)
| Raise (e : exn).

Arguments Ok {A} a.
Arguments Raise {A} e.

Definition bind {A B : Type} (m : result A) (k : A -> result B) : result B :=
  match m with
  | Ok a => k a
  | Raise e => Raise e
  end.

(** [x and y] and [x or y] on operands that may raise: the right operand
    is only looked at when the left one does not decide the result. *)
Definition and_then (x y : result bool) : result bool :=
  bind x (fun b => if b then y else Ok false).

Definition or_else (x y : result bool) : result bool :=
  bind x (fun b => if b then Ok true else y).

(** [len(s)] *)
Definition len (s : string) : Z := Z.of_nat (String.length s).

(** Bound adjustment of a slice [s[lo:hi]] on a sequence of length [n]:
    a negative bound counts from the end, and the result is clipped to
    [0..n]. *)
Definition clip (n i : Z) : Z :=
  if i <? 0 then Z.max 0 (i + n) else Z.min i n.

Definition bounds (n : Z) (lo hi : option Z) : Z * Z :=
  (match lo with Some i => clip n i | None => 0 end,
   match hi with Some i => clip n i | None => n end).

(** [s[lo:hi]] on strings; never raises. *)
Definition str_slice (s : string) (lo hi : option Z) : string :=
  let (l, h) := bounds (len s) lo hi in
  String.substring (Z.to_nat l) (Z.to_nat (h - l)) s.

(** [xs[lo:hi]] on lists; never raises. *)
Definition list_slice {A : Type} (xs : list A) (lo hi : option Z) : list A :=
  let (l, h) := bounds (Z.of_nat (List.length xs)) lo hi in
  firstn (Z.to_nat (h - l)) (skipn (Z.to_nat l) xs).

(** [s[i]] on strings: a one-character string, or [IndexError]. *)
Definition str_index (s : string) (i : Z) : result string :=
  let j := if i <? 0 then i + len s else i in
  if j <? 0 then Raise IndexError
  else match String.get (Z.to_nat j) s with
       | Some c => Ok (String c EmptyString)
       | None => Raise IndexError
       end.

(** [xs[i]] on lists, or [IndexError]. *)
Definition list_index {A : Type} (xs : list A) (i : Z) : result A :=
  let j := if i <? 0 then i + Z.of_nat (List.length xs) else i in
  if j <? 0 then Raise IndexError
  else match nth_error xs (Z.to_nat j) with
       | Some x => Ok x
       | None => Raise IndexError
       end.

(** [needle in hay] on strings: substring test. *)
Fixpoint str_in (needle hay : string) : bool :=
  String.prefix needle hay
  || match hay with
     | EmptyString => false
     | String _ hay' => str_in needle hay'
     end.

(** [s.split(sep)] for a one-character separator: always at least one
    segment, one more than the number of separators in [s]. *)
Fixpoint split (sep : ascii) (s : string) : list string :=
  match s with
  | EmptyString => [EmptyString]
  | String c s' =>
      if Ascii.eqb c sep then EmptyString :: split sep s'
      else match split sep s' with
           | seg :: segs => String c seg :: segs
           | [] => [String c EmptyString]
           end
  end.

(** [sep.join(xs)] *)
Definition join (sep : string) (xs : list string) : string :=
  String.concat sep xs.

(** [range(lo, hi)] *)
Definition range (lo hi : Z) : list Z :=
  map (fun k => lo + Z.of_nat k) (seq 0 (Z.to_nat (hi - lo))).

(** *** [re.sub] for the two patterns of the module

    Both patterns are a fixed opener, a lazy run of [.] (any character
    but a newline) and a fixed closer.  Matching is leftmost, the lazy
    run stops at the first closer it can, and the scan resumes after
    the match.  Neither pattern matches the empty string. *)

Definition newline : ascii := "010"%char.

(** [.*?c] at the head of [s]: number of characters consumed. *)
Fixpoint lazy_until (close : ascii) (s : string) : option nat :=
  match s with
  | EmptyString => None
  | String c s' =>
      if Ascii.eqb c close then Some 1%nat
      else if Ascii.eqb c newline then None
      else option_map S (lazy_until close s')
  end.

(** [\[.+?\]] at the head of [s]: length of the match. *)
Definition match_bracket (s : string) : option nat :=
  match s with
  | String "[" (String c s') =>
      if Ascii.eqb c newline then None
      else option_map (fun n => S (S n)) (lazy_until "]" s')
  | _ => None
  end.

(** [\$\{.*?\}] at the head of [s]: length of the match. *)
Definition match_dollar_brace (s : string) : option nat :=
  match s with
  | String "$" (String "{" s') =>
      option_map (fun n => S (S n)) (lazy_until "}" s')
  | _ => None
  end.

(** Left-to-right substitution of every match by [repl]; [skip] counts
    the characters of the current match still to be dropped. *)
Fixpoint sub_scan (m : string -> option nat) (repl : string)
         (skip : nat) (s : string) : string :=
  match s with
  | EmptyString => EmptyString
  | String c s' =>
      match skip with
      | S k => sub_scan m repl k s'
      | O =>
          match m s with
          | Some (S k) => repl ++ sub_scan m repl k s'
          | _ => String c (sub_scan m repl 0 s')
          end
      end
  end.

Definition re_sub (m : string -> option nat) (repl s : string) : string :=
  sub_scan m repl 0 s.

End Py.

Import Py.

Notation "x <- m ;; k" := (Py.bind m (fun x => k))
  (at level 61, m at next level, right associativity).

(** ** The matcher *)

(** The body of [for position in range(0, 5)]: [None] when the loop runs
    to its end, [Some b] when it leaves the function with [return b]. *)
Fixpoint prefix_loop (positions : list Z) (arn_parts resource_parts : list string)
  : result (option bool) :=
  match positions with
  | [] => Ok None
  | position :: positions' =>
      a <- list_index arn_parts position ;;
      if (a =? "*")%string || (a =? "")%string then
        prefix_loop positions' arn_parts resource_parts
      else
        r <- list_index resource_parts position ;;
        if (r =? "*")%string || (r =? "")%string then
          prefix_loop positions' arn_parts resource_parts
        else if (a =? r)%string then
          prefix_loop positions' arn_parts resource_parts
        else Ok (Some false)
  end.

(** Lines 97-156: the cascade on the two identifier strings. *)
Definition id_match (arn_id resource_id : string) : result bool :=
  if (arn_id =? resource_id)%string then Ok true else
  let arn_id := re_sub match_bracket "*" arn_id in
  if negb (str_in "*" arn_id) && negb (str_in "*" resource_id) then Ok false else
  if (arn_id =? "*")%string || (resource_id =? "*")%string then Ok true else
  if (arn_id =? "")%string || (resource_id =? "")%string then Ok false else
  let is_star (c : result string) := x <- c ;; Ok (x =? "*")%string in
  b <- or_else
         (and_then (is_star (str_index arn_id 0)) (is_star (str_index resource_id (-1))))
         (and_then (is_star (str_index arn_id (-1))) (is_star (str_index resource_id 0))) ;;
  if b then Ok true else
  b <- and_then (is_star (str_index arn_id 0)) (is_star (str_index arn_id (-1))) ;;
  if b && str_in (str_slice arn_id (Some 1) (Some (-1))) resource_id then Ok true else
  b <- and_then (is_star (str_index resource_id 0)) (is_star (str_index resource_id (-1))) ;;
  if b && str_in (str_slice resource_id (Some 1) (Some (-1))) arn_id then Ok true else
  b <- is_star (str_index arn_id (-1)) ;;
  if b && (str_slice resource_id None (Some (len arn_id - 1))
           =? str_slice arn_id None (Some (-1)))%string then Ok true else
  b <- is_star (str_index resource_id (-1)) ;;
  if b && (str_slice arn_id None (Some (len resource_id - 1))
           =? str_slice resource_id None (Some (-1)))%string then Ok true else
  Ok false.

Definition is_arn_match (resource_type arn_format resource : string) : result bool :=
  if (arn_format =? "*")%string || (resource =? "*")%string then Ok true else
  if str_in "bucket" resource_type && str_in "/" resource then Ok false else
  let arn_parts := split ":" arn_format in
  if Z.of_nat (List.length arn_parts) <? 6 then
    Raise (Exception ("Unexpected format for ARN: " ++ arn_format))
  else
  let resource_parts := split ":" resource in
  if Z.of_nat (List.length resource_parts) <? 6 then
    Raise (Exception ("Unexpected format for resource: " ++ resource))
  else
  ret <- prefix_loop (range 0 5) arn_parts resource_parts ;;
  match ret with
  | Some b => Ok b
  | None =>
      let arn_id := join "" (list_slice arn_parts (Some 5) None) in
      let resource_id := join "" (list_slice resource_parts (Some 5) None) in
      id_match arn_id resource_id
  end.

(** ** The resolver *)

(** The catalog [iam_definition]: a JSON array of services, each with a
    ["service_name"] and a ["resources"] array whose items carry the
    resource type name under ["resource"] and the template under ["arn"]. *)
Module IamDefinition.

Record Resource : Type := {
  resource : string;
  arn : string
}.

Record Service : Type := {
  service_name : string;
  resources : list Resource
}.

End IamDefinition.

Import IamDefinition.

(** ["{} - {}".format(x, y)] *)
Definition format_line (x y : string) : string := x ++ " - " ++ y.

(** The inner loop [for resource in service["resources"]].  [stdout] is
    the list of lines printed so far; an exception leaves the loop with
    the lines printed before it. *)
Fixpoint for_resources (service : Service) (arn : string)
         (rs : list Resource) (stdout : list string) : list string * result unit :=
  match rs with
  | [] => (stdout, Ok tt)
  | resource :: rs' =>
      let arn_format := re_sub match_dollar_brace "*" (IamDefinition.arn resource) in
      match is_arn_match (IamDefinition.resource resource) arn arn_format with
      | Raise e => (stdout, Raise e)
      | Ok true =>
          for_resources service arn rs'
            (stdout ++ [format_line (service_name service) (IamDefinition.resource resource)])
      | Ok false => for_resources service arn rs' stdout
      end
  end.

(** The outer loop [for service in iam_definition]. *)
Fixpoint for_services (services : list Service) (arn : string)
         (stdout : list string) : list string * result unit :=
  match services with
  | [] => (stdout, Ok tt)
  | service :: services' =>
      match for_resources service arn (resources service) stdout with
      | (stdout', Ok _) => for_services services' arn stdout'
      | (stdout', Raise e) => (stdout', Raise e)
      end
  end.

Definition get_resource_type_from_arn (iam_definition : list Service) (arn : string)
  : list string * result unit :=
  for_services iam_definition arn [].

(** ** Vocabulary of the specification *)

(** Segments of a pattern, and well-formedness: at least 6 of them. *)
Definition segments (s : string) : list string := split ":" s.

Definition segment (s : string) (i : nat) : string := nth i (segments s) "".

Definition well_formed (s : string) : Prop := (6 <= List.length (segments s))%nat.

(** The identifier portion: segments 5 onward, rejoined without colons. *)
Definition identifier (s : string) : string := join "" (skipn 5 (segments s)).

(** The bucket-shape exclusion fires. *)
Definition bucket_exclusion (resource_type resource : string) : bool :=
  str_in "bucket" resource_type && str_in "/" resource.

(** Compatibility of two prefix segments, as the specification words it. *)
Definition compatible (a r : string) : bool :=
  (a =? "*")%string || (a =? "")%string
  || (r =? "*")%string || (r =? "")%string
  || (a =? r)%string.

Definition prefix_compatible (a b : string) : bool :=
  forallb (fun i => compatible (segment a i) (segment b i)) (seq 0 5).

(** Last character is [*]. *)
Fixpoint ends_with_star (s : string) : bool :=
  match s with
  | EmptyString => false
  | String c EmptyString => Ascii.eqb c "*"
  | String _ s' => ends_with_star s'
  end.

(** Catalog entries in iteration order, and the matcher call made on one. *)
Definition entries (iam_definition : list Service) : list (Service * Resource) :=
  flat_map (fun service => map (pair service) (resources service)) iam_definition.

Definition entry_match (arn : string) (e : Service * Resource) : result bool :=
  is_arn_match (resource (snd e)) arn (re_sub match_dollar_brace "*" (IamDefinition.arn (snd e))).

Definition entry_line (e : Service * Resource) : string :=
  format_line (service_name (fst e)) (resource (snd e)).

Definition qualifies (arn : string) (e : Service * Resource) : bool :=
  match entry_match arn e with
  | Ok true => true
  | _ => false
  end.

Definition raises {A : Type} (r : result A) : Prop :=
  exists e, r = Raise e.

Definition returns {A : Type} (r : result A) : Prop :=
  exists a, r = Ok a.

(** The two loops of the resolver as one pass over the entries. *)
Fixpoint scan (arn : string) (es : list (Service * Resource)) (stdout : list string)
  : list string * result unit :=
  match es with
  | [] => (stdout, Ok tt)
  | e :: es' =>
      match entry_match arn e with
      | Raise x => (stdout, Raise x)
      | Ok true => scan arn es' (stdout ++ [entry_line e])
      | Ok false => scan arn es' stdout
      end
  end.

(** The message of the malformed-ARN error: the first argument is checked
    before the second. *)
Definition malformed_message (arn_format resource : string) : string :=
  if Z.of_nat (List.length (segments arn_format)) <? 6
  then "Unexpected format for ARN: " ++ arn_format
  else "Unexpected format for resource: " ++ resource.

(** Last character of the non-empty string [String c s]. *)
Fixpoint last_char (c : ascii) (s : string) : ascii :=
  match s with
  | EmptyString => c
  | String c' s' => last_char c' s'
  end.

(** Occurrence of a character: [c in s] for a one-character [c]. *)
Definition has (c : ascii) (s : string) : bool := str_in (String c "") s.

(** A small catalog in the shape of [iam_definition.json], and one whose
    second service carries a template with too few segments. *)
Definition s3_object : Resource :=
  {| resource := "object";
     arn := "arn:${Partition}:s3:::${BucketName}/${ObjectName}" |}.

Definition s3_bucket : Resource :=
  {| resource := "bucket"; arn := "arn:${Partition}:s3:::${BucketName}" |}.

Definition ec2_instance : Resource :=
  {| resource := "instance";
     arn := "arn:${Partition}:ec2:${Region}:${Account}:instance/${InstanceId}" |}.

Definition iam_user : Resource :=
  {| resource := "user"; arn := "arn:${Partition}:iam" |}.

Definition s3 : Service :=
  {| service_name := "s3"; resources := [s3_object; s3_bucket] |}.

Definition ec2 : Service :=
  {| service_name := "ec2"; resources := [ec2_instance] |}.

Definition iam : Service :=
  {| service_name := "iam"; resources := [iam_user] |}.

Definition sample_catalog : list Service := [s3; ec2].

Definition broken_catalog : list Service := [s3; iam; s3].

(** Number of occurrences of a character. *)
Fixpoint count_char (c : ascii) (s : string) : nat :=
  match s with
  | EmptyString => 0%nat
  | String a s' => ((if Ascii.eqb a c then 1 else 0) + count_char c s')%nat
  end.

(** First character is [*]. *)
Definition starts_with_star (s : string) : bool :=
  match s with
  | EmptyString => false
  | String c _ => Ascii.eqb c "*"
  end.

(** [s] without its first [n] characters. *)
Fixpoint drop (n : nat) (s : string) : string :=
  match n, s with
  | O, _ => s
  | S n', String _ s' => drop n' s'
  | S _, EmptyString => EmptyString
  end.

(** The template of a catalog entry after placeholder substitution. *)
Definition normalized (r : Resource) : string :=
  re_sub match_dollar_brace "*" (IamDefinition.arn r).

(** The patterns reach the identifier cascade: both are well-formed, the
    bucket exclusion does not fire and the five prefix segments agree. *)
Definition reaches_cascade (resource_type a b : string) : Prop :=
  well_formed a /\ well_formed b
  /\ bucket_exclusion resource_type b = false
  /\ prefix_compatible a b = true.

(** The identifier cascade of lines 97-156 as a boolean, the subscripts
    [x[0] == "*"] and [x[-1] == "*"] read as tests on the first and last
    character. *)
Definition cascade (arn_id resource_id : string) : bool :=
  (arn_id =? resource_id)%string
  || let x := re_sub match_bracket "*" arn_id in
     let y := resource_id in
     if negb (str_in "*" x) && negb (str_in "*" y) then false else
     if (x =? "*")%string || (y =? "*")%string then true else
     if (x =? "")%string || (y =? "")%string then false else
     (starts_with_star x && ends_with_star y || ends_with_star x && starts_with_star y)
     || (starts_with_star x && ends_with_star x
         && str_in (str_slice x (Some 1) (Some (-1))) y)
     || (starts_with_star y && ends_with_star y
         && str_in (str_slice y (Some 1) (Some (-1))) x)
     || (ends_with_star x
         && (str_slice y None (Some (len x - 1)) =? str_slice x None (Some (-1)))%string)
     || (ends_with_star y
         && (str_slice x None (Some (len y - 1)) =? str_slice y None (Some (-1)))%string).

(** ** Facts about the primitives *)

Section PrimitiveFacts.

Lemma split_not_nil (sep : ascii) (s : string) : split sep s <> [].
Proof.
  destruct s as [|c s]; simpl; [discriminate|].
  destruct (Ascii.eqb c sep); [discriminate|].
  destruct (split sep s); discriminate.
Qed.

Lemma list_slice_from {A : Type} (xs : list A) (n : Z) :
  0 <= n -> list_slice xs (Some n) None = skipn (Z.to_nat n) xs.
Proof.
  intros Hn. unfold list_slice, bounds, clip.
  destruct (Z.ltb_spec n 0) as [Hlt|_]; [lia|].
  destruct (Z.le_gt_cases n (Z.of_nat (List.length xs))) as [Hle|Hgt].
  - rewrite Z.min_l by lia.
    apply firstn_all2. rewrite length_skipn. lia.
  - rewrite Z.min_r by lia.
    rewrite Nat2Z.id, skipn_all, (skipn_all2 xs) by lia.
    now destruct (Z.to_nat _).
Qed.

Lemma list_index_nth {A : Type} (xs : list A) (i : Z) (d : A) :
  0 <= i < Z.of_nat (List.length xs) ->
  list_index xs i = Ok (nth (Z.to_nat i) xs d).
Proof.
  intros Hi. unfold list_index.
  destruct (Z.ltb_spec i 0) as [Hlt|_]; [lia|].
  destruct (Z.ltb_spec i 0) as [Hlt|_]; [lia|].
  rewrite (nth_error_nth' xs d) by lia. reflexivity.
Qed.

Lemma get_last (c : ascii) (s : string) :
  String.get (String.length s) (String c s) = Some (last_char c s).
Proof.
  revert c. induction s as [|c' s IH]; intros c; [reflexivity|].
  simpl. apply (IH c').
Qed.

Lemma str_index_first (c : ascii) (s : string) :
  str_index (String c s) 0 = Ok (String c "").
Proof. reflexivity. Qed.

Lemma str_index_last (c : ascii) (s : string) :
  str_index (String c s) (-1) = Ok (String (last_char c s) "").
Proof.
  unfold str_index, len.
  change (-1 <? 0) with true. cbv iota.
  replace (-1 + Z.of_nat (String.length (String c s)))
    with (Z.of_nat (String.length s)) by (simpl String.length; lia).
  destruct (Z.ltb_spec (Z.of_nat (String.length s)) 0) as [Hlt|_]; [lia|].
  rewrite Nat2Z.id, get_last. reflexivity.
Qed.

Lemma ends_with_star_last (c : ascii) (s : string) :
  ends_with_star (String c s) = Ascii.eqb (last_char c s) "*".
Proof.
  revert c. induction s as [|c' s IH]; intros c; [reflexivity|].
  simpl last_char. rewrite <- IH. reflexivity.
Qed.

Lemma one_char_eqb (c d : ascii) :
  (String c "" =? String d "")%string = Ascii.eqb c d.
Proof. simpl. now destruct (Ascii.eqb c d). Qed.

(** A slice that stops one short of the end, written either way. *)
Lemma str_slice_drop_last (s : string) :
  s <> "" ->
  str_slice s None (Some (len s - 1)) = str_slice s None (Some (-1)).
Proof.
  intros Hs. unfold str_slice, bounds, clip.
  assert (1 <= len s) by (destruct s; [congruence|unfold len; simpl; lia]).
  destruct (Z.ltb_spec (len s - 1) 0) as [Hlt|_]; [lia|].
  change (-1 <? 0) with true. cbv iota.
  rewrite Z.min_l, Z.max_r by lia.
  do 2 f_equal; lia.
Qed.

(** *** Character membership through [split] and [join] *)

Lemma has_cons (c a : ascii) (s : string) :
  has c (String a s) = Ascii.eqb c a || has c s.
Proof.
  unfold has. simpl.
  destruct (Ascii.ascii_dec c a) as [->|Hne].
  - rewrite Ascii.eqb_refl. now destruct s.
  - apply Ascii.eqb_neq in Hne. rewrite Hne. reflexivity.
Qed.

Lemma has_app (c : ascii) (s t : string) :
  has c (s ++ t) = has c s || has c t.
Proof.
  induction s as [|a s IH]; [reflexivity|].
  change (String a s ++ t)%string with (String a (s ++ t)).
  rewrite !has_cons, IH, orb_assoc. reflexivity.
Qed.

Lemma has_join (c : ascii) (xs : list string) :
  has c (join "" xs) = existsb (has c) xs.
Proof.
  unfold join. induction xs as [|x xs IH]; [reflexivity|].
  destruct xs as [|y ys].
  - simpl. now rewrite orb_false_r.
  - change (String.concat "" (x :: y :: ys))
      with (x ++ "" ++ String.concat "" (y :: ys))%string.
    change ("" ++ String.concat "" (y :: ys))%string
      with (String.concat "" (y :: ys)).
    rewrite has_app, IH. reflexivity.
Qed.

Lemma existsb_skipn {A : Type} (f : A -> bool) (n : nat) (xs : list A) :
  existsb f (skipn n xs) = true -> existsb f xs = true.
Proof.
  revert xs. induction n as [|n IH]; intros [|x xs]; simpl; auto.
  intros H. rewrite (IH _ H). apply orb_true_r.
Qed.

Lemma has_split (c sep : ascii) (s : string) :
  existsb (has c) (split sep s) = true -> has c s = true.
Proof.
  induction s as [|a s IH]; simpl; [now auto|].
  rewrite has_cons.
  destruct (Ascii.eqb a sep).
  - simpl. intros H. rewrite (IH H). apply orb_true_r.
  - pose proof (split_not_nil sep s) as Hnil.
    destruct (split sep s) as [|seg segs]; [congruence|].
    simpl in *. rewrite has_cons.
    destruct (Ascii.eqb c a); [reflexivity|]. simpl. exact IH.
Qed.

Lemma has_identifier (c : ascii) (s : string) :
  has c (identifier s) = true -> has c s = true.
Proof.
  unfold identifier. rewrite has_join. intros H.
  apply (has_split c ":"), (existsb_skipn _ 5), H.
Qed.

End PrimitiveFacts.

(** ** Structure of the matcher *)

Section MatcherStructure.

Lemma well_formed_not_star (s : string) :
  well_formed s -> (s =? "*")%string = false.
Proof.
  intros Hwf. destruct (String.eqb_spec s "*") as [->|_]; [|reflexivity].
  unfold well_formed, segments in Hwf. simpl in Hwf. lia.
Qed.

Lemma malformed_check (s : string) :
  (Z.of_nat (List.length (split ":" s)) <? 6) = false <-> well_formed s.
Proof.
  unfold well_formed, segments. rewrite Z.ltb_ge. lia.
Qed.

(** The loop over in-range positions returns [False] at the first
    incompatible position and falls through otherwise. *)
Lemma prefix_loop_spec (positions : list Z) (arn_parts resource_parts : list string) :
  (forall p, In p positions ->
             0 <= p < Z.of_nat (List.length arn_parts)
             /\ p < Z.of_nat (List.length resource_parts)) ->
  prefix_loop positions arn_parts resource_parts
  = Ok (if forallb (fun p => compatible (nth (Z.to_nat p) arn_parts "")
                                        (nth (Z.to_nat p) resource_parts ""))
                   positions
        then None else Some false).
Proof.
  induction positions as [|p ps IH]; intros Hin; [reflexivity|].
  destruct (Hin p (or_introl eq_refl)) as [Ha Hr].
  assert (Hps : forall q, In q ps ->
                 0 <= q < Z.of_nat (List.length arn_parts)
                 /\ q < Z.of_nat (List.length resource_parts))
    by (intros q Hq; apply Hin; now right).
  specialize (IH Hps).
  simpl prefix_loop. simpl forallb. unfold compatible at 1.
  rewrite (list_index_nth arn_parts p "") by lia.
  rewrite (list_index_nth resource_parts p "") by lia.
  simpl bind.
  destruct (nth (Z.to_nat p) arn_parts "" =? "*")%string;
    destruct (nth (Z.to_nat p) arn_parts "" =? "")%string;
    destruct (nth (Z.to_nat p) resource_parts "" =? "*")%string;
    destruct (nth (Z.to_nat p) resource_parts "" =? "")%string;
    destruct (nth (Z.to_nat p) arn_parts "" =? nth (Z.to_nat p) resource_parts "")%string;
    simpl; auto.
Qed.

Lemma range_0_5 : range 0 5 = [0; 1; 2; 3; 4].
Proof. reflexivity. Qed.

Lemma prefix_loop_well_formed (a b : string) :
  well_formed a -> well_formed b ->
  prefix_loop (range 0 5) (split ":" a) (split ":" b)
  = Ok (if prefix_compatible a b then None else Some false).
Proof.
  intros Ha Hb. unfold well_formed, segments in *.
  rewrite prefix_loop_spec.
  - reflexivity.
  - rewrite range_0_5. simpl. intros p Hp. lia.
Qed.

(** On well-formed patterns the matcher is the bucket exclusion, then the
    prefix comparison, then the identifier cascade. *)
Lemma is_arn_match_well_formed (resource_type a b : string) :
  well_formed a -> well_formed b ->
  is_arn_match resource_type a b
  = if bucket_exclusion resource_type b then Ok false
    else if prefix_compatible a b then id_match (identifier a) (identifier b)
    else Ok false.
Proof.
  intros Ha Hb. unfold is_arn_match.
  rewrite (well_formed_not_star a Ha), (well_formed_not_star b Hb).
  simpl orb. cbv iota. fold (bucket_exclusion resource_type b).
  destruct (bucket_exclusion resource_type b); [reflexivity|].
  rewrite (proj2 (malformed_check a) Ha), (proj2 (malformed_check b) Hb).
  rewrite (prefix_loop_well_formed a b Ha Hb). simpl bind.
  destruct (prefix_compatible a b); [|reflexivity].
  rewrite !list_slice_from by lia. reflexivity.
Qed.

(** When neither pattern is the bare wildcard and the exclusion does not
    fire, a malformed pattern is reported, the first argument first. *)
Lemma is_arn_match_malformed (resource_type a b : string) :
  (a =? "*")%string = false -> (b =? "*")%string = false ->
  bucket_exclusion resource_type b = false ->
  ~ (well_formed a /\ well_formed b) ->
  is_arn_match resource_type a b
  = Raise (Exception (malformed_message a b)).
Proof.
  intros Ha Hb Hbucket Hwf. unfold is_arn_match, malformed_message, segments.
  rewrite Ha, Hb. simpl orb. cbv iota.
  fold (bucket_exclusion resource_type b). rewrite Hbucket.
  destruct (Z.of_nat (List.length (split ":" a)) <? 6) eqn:Ea; [reflexivity|].
  destruct (Z.of_nat (List.length (split ":" b)) <? 6) eqn:Eb; [reflexivity|].
  exfalso. apply Hwf. split; now apply malformed_check.
Qed.

(** *** The identifier cascade *)

Lemma id_match_refl (x : string) : id_match x x = Ok true.
Proof. unfold id_match. now rewrite String.eqb_refl. Qed.

(** Past the emptiness check every subscript is in range. *)
Lemma id_match_returns (x y : string) : returns (id_match x y).
Proof.
  unfold returns, id_match.
  destruct (x =? y)%string; [now eexists|].
  generalize (re_sub match_bracket "*" x). clear x. intros x.
  destruct (negb (str_in "*" x) && negb (str_in "*" y)); [now eexists|].
  destruct ((x =? "*")%string || (y =? "*")%string); [now eexists|].
  destruct x as [|cx x]; [now eexists|].
  destruct y as [|cy y]; [now eexists|].
  change ((String cx x =? "")%string || (String cy y =? "")%string) with false.
  cbv iota.
  rewrite !str_index_first, !str_index_last.
  unfold and_then, or_else, bind.
  rewrite !one_char_eqb.
  destruct (Ascii.eqb cx "*"), (Ascii.eqb cy "*"),
    (Ascii.eqb (last_char cx x) "*"), (Ascii.eqb (last_char cy y) "*");
    simpl;
    repeat match goal with
           | |- context [if ?c then _ else _] => destruct c
           end;
    now eexists.
Qed.

End MatcherStructure.

Section IdentifierCascade.

Lemma has_last_char (c : ascii) (s : string) :
  has (last_char c s) (String c s) = true.
Proof.
  revert c. induction s as [|c' s IH]; intros c; rewrite has_cons.
  - simpl. now rewrite Ascii.eqb_refl.
  - simpl last_char. rewrite (IH c'). apply orb_true_r.
Qed.

Lemma ends_with_star_has (s : string) :
  ends_with_star s = true -> str_in "*" s = true.
Proof.
  destruct s as [|c s]; [discriminate|].
  rewrite ends_with_star_last. intros H.
  apply Ascii.eqb_eq in H. rewrite <- H. apply has_last_char.
Qed.

(** When the bracket substitution turns the first identifier into the
    second one, the cascade answers true exactly when they were equal to
    begin with or the common identifier ends with an asterisk. *)
Lemma id_match_normalized_equal (x y : string) :
  re_sub match_bracket "*" x = y ->
  id_match x y = Ok ((x =? y)%string || ends_with_star y).
Proof.
  intros Hsub. unfold id_match. rewrite Hsub.
  destruct (x =? y)%string; [reflexivity|]. simpl orb.
  destruct (str_in "*" y) eqn:Estar.
  2:{ simpl. destruct (ends_with_star y) eqn:E; [|reflexivity].
      apply ends_with_star_has in E. congruence. }
  simpl andb. cbv iota. rewrite orb_diag.
  destruct (String.eqb_spec y "*") as [->|Hne]; [reflexivity|].
  destruct y as [|c y]; [reflexivity|].
  change ((String c y =? "")%string || (String c y =? "")%string) with false.
  cbv iota.
  rewrite !str_index_first, !str_index_last, ends_with_star_last.
  unfold and_then, or_else, bind.
  rewrite !one_char_eqb.
  rewrite str_slice_drop_last by discriminate.
  rewrite String.eqb_refl.
  destruct (Ascii.eqb c "*"), (Ascii.eqb (last_char c y) "*"); simpl; try reflexivity.
  all: repeat match goal with
              | |- context [if ?b then _ else _] => destruct b
              end; reflexivity.
Qed.

End IdentifierCascade.

(** ** Structure of the resolver *)

Section ResolverStructure.

Variable arn : string.

Lemma for_resources_scan (service : Service) (rs : list Resource) (stdout : list string) :
  for_resources service arn rs stdout = scan arn (map (pair service) rs) stdout.
Proof.
  revert stdout. induction rs as [|r rs IH]; intros stdout; [reflexivity|].
  simpl. unfold entry_match, entry_line. simpl.
  destruct (is_arn_match _ _ _) as [[|]|e]; auto.
Qed.

Lemma scan_app (es1 es2 : list (Service * Resource)) (stdout : list string) :
  scan arn (es1 ++ es2) stdout
  = match scan arn es1 stdout with
    | (stdout', Ok _) => scan arn es2 stdout'
    | (stdout', Raise e) => (stdout', Raise e)
    end.
Proof.
  revert stdout. induction es1 as [|e es1 IH]; intros stdout; [reflexivity|].
  simpl. destruct (entry_match arn e) as [[|]|x]; auto.
Qed.

Lemma for_services_scan (services : list Service) (stdout : list string) :
  for_services services arn stdout = scan arn (entries services) stdout.
Proof.
  revert stdout. induction services as [|s services IH]; intros stdout; [reflexivity|].
  simpl. rewrite scan_app, for_resources_scan.
  destruct (scan arn (map (pair s) (resources s)) stdout) as [stdout' [u|e]]; auto.
Qed.

Lemma scan_returns (es : list (Service * Resource)) (stdout : list string) :
  (forall e, In e es -> returns (entry_match arn e)) ->
  scan arn es stdout
  = ((stdout ++ map entry_line (filter (qualifies arn) es))%list, Ok tt).
Proof.
  revert stdout. induction es as [|e es IH]; intros stdout Hret.
  - simpl. now rewrite app_nil_r.
  - assert (Hes : forall e', In e' es -> returns (entry_match arn e'))
      by (intros e' He'; apply Hret; now right).
    destruct (Hret e (or_introl eq_refl)) as [b Hb].
    simpl. unfold qualifies at 1. rewrite Hb.
    destruct b; rewrite (IH _ Hes); [|reflexivity].
    simpl. now rewrite <- app_assoc.
Qed.

Lemma scan_raises (pre post : list (Service * Resource)) (e : Service * Resource)
      (x : exn) (stdout : list string) :
  (forall e', In e' pre -> returns (entry_match arn e')) ->
  entry_match arn e = Raise x ->
  scan arn (pre ++ e :: post) stdout
  = ((stdout ++ map entry_line (filter (qualifies arn) pre))%list, Raise x).
Proof.
  intros Hpre He. rewrite scan_app, (scan_returns pre stdout Hpre).
  simpl. now rewrite He.
Qed.

End ResolverStructure.

(** ** Worked examples from the docstring of [is_arn_match] *)

Section DocstringExamples.

Example example_personalize :
  is_arn_match "object" "arn:*:s3:::*/*" "arn:aws:s3:::*personalize*" = Ok true.
Proof. reflexivity. Qed.

Example example_slash_vs_literal :
  is_arn_match "object" "arn:*:s3:::*/*" "arn:aws:s3:::mybucket" = Ok false.
Proof. reflexivity. Qed.

Example example_slash_vs_suffix_star :
  is_arn_match "object" "arn:*:s3:::*/*" "arn:aws:s3:::mybucket*" = Ok true.
Proof. reflexivity. Qed.

Example example_two_prefix_stars :
  is_arn_match "object" "arn:*:s3:::*mybucket" "arn:aws:s3:::*myotherthing" = Ok false.
Proof. reflexivity. Qed.

Example example_log_group :
  is_arn_match "log-group" "arn:aws:logs:us-east-1:123:log-group:*"
               "arn:aws:logs:::log-group:/aws/elasticbeanstalk*" = Ok true.
Proof. reflexivity. Qed.

Example example_re_sub_bracket :
  re_sub match_bracket "*" "a[]]b[x][[y]][" = "a*b**][".
Proof. reflexivity. Qed.

Example example_re_sub_template :
  re_sub match_dollar_brace "*" "arn:${Partition}:s3:::${BucketName}/${ObjectName}"
  = "arn:*:s3:::*/*".
Proof. reflexivity. Qed.

End DocstringExamples.

(** ** Prefix compatibility *)

Section PrefixCompatibility.

Lemma compatible_refl (x : string) : compatible x x = true.
Proof. unfold compatible. rewrite String.eqb_refl. apply orb_true_r. Qed.

Lemma prefix_compatible_refl (a : string) : prefix_compatible a a = true.
Proof.
  unfold prefix_compatible. apply forallb_forall.
  intros i _. apply compatible_refl.
Qed.

Lemma prefix_compatible_true (a b : string) :
  prefix_compatible a b = true
  <-> forall i, (i < 5)%nat -> compatible (segment a i) (segment b i) = true.
Proof.
  unfold prefix_compatible. rewrite forallb_forall. split.
  - intros H i Hi. apply H, in_seq. lia.
  - intros H i Hi. apply H. apply in_seq in Hi. lia.
Qed.

Lemma prefix_compatible_false (a b : string) :
  (exists i, (i < 5)%nat /\ compatible (segment a i) (segment b i) = false) ->
  prefix_compatible a b = false.
Proof.
  intros (i & Hi & Hc).
  destruct (prefix_compatible a b) eqn:E; [|reflexivity].
  rewrite (proj1 (prefix_compatible_true a b) E i Hi) in Hc. discriminate.
Qed.

End PrefixCompatibility.

(** ** The claims *)

(** C1, as stated, fails: with the bare wildcard as first pattern the
    universal-wildcard rule answers true before the bucket exclusion is
    looked at. *)
Lemma C1_first_pattern_star_overrides :
  ~ (forall resource_type a b,
        str_in "bucket" resource_type = true ->
        str_in "/" (identifier b) = true ->
        is_arn_match resource_type a b = Ok false).
Proof.
  intros H.
  specialize (H "s3:bucket" "*" "arn:aws:s3:::mybucket/key" eq_refl eq_refl).
  discriminate H.
Qed.

(** C1 (amended): when the resource type hint contains "bucket", the first
    pattern is not the bare wildcard "*", and the identifier portion of the
    second pattern contains a '/', the matcher returns false, whatever else
    the first pattern is (well-formed or not). *)
Theorem C1_bucket_exclusion (resource_type a b : string) :
  str_in "bucket" resource_type = true ->
  a <> "*" ->
  str_in "/" (identifier b) = true ->
  is_arn_match resource_type a b = Ok false.
Proof.
  intros Hbucket Ha Hid.
  assert (Hslash : str_in "/" b = true) by (apply (has_identifier "/"), Hid).
  assert (Hb : (b =? "*")%string = false).
  { destruct (String.eqb_spec b "*") as [->|_]; [discriminate Hid|reflexivity]. }
  unfold is_arn_match.
  rewrite (proj2 (String.eqb_neq a "*") Ha), Hb, Hbucket, Hslash. reflexivity.
Qed.

Lemma C1_bucket_exclusion_witness :
  str_in "bucket" "s3:bucket" = true
  /\ "arn:*:s3:::*" <> "*"
  /\ str_in "/" (identifier "arn:aws:s3:::mybucket/key") = true
  /\ is_arn_match "s3:bucket" "arn:*:s3:::*" "arn:aws:s3:::mybucket/key" = Ok false.
Proof.
  split; [reflexivity|]. split; [discriminate|]. split; [reflexivity|].
  apply (C1_bucket_exclusion "s3:bucket" "arn:*:s3:::*" "arn:aws:s3:::mybucket/key");
    [reflexivity | discriminate | reflexivity].
Defined.

(** C2, as stated, fails: a 5-segment first pattern against the bare
    wildcard returns true instead of raising. *)
Lemma C2_malformed_against_star_returns :
  ~ (forall resource_type a b,
        ~ well_formed a \/ ~ well_formed b ->
        raises (is_arn_match resource_type a b)).
Proof.
  intros H.
  assert (Hmal : ~ well_formed "arn:aws:s3::" \/ ~ well_formed "*").
  { left. unfold well_formed. simpl. lia. }
  destruct (H "object" "arn:aws:s3::" "*" Hmal) as [e He].
  discriminate He.
Qed.

(** C2 (amended): when neither argument is the bare wildcard "*" and the
    bucket exclusion does not fire (the hint contains "bucket" and the
    second argument contains '/'), a pattern with fewer than 6
    colon-delimited segments in either position makes the matcher raise the
    malformed-ARN error; the first argument is reported before the second. *)
Theorem C2_malformed_raises (resource_type a b : string) :
  a <> "*" -> b <> "*" ->
  bucket_exclusion resource_type b = false ->
  ~ well_formed a \/ ~ well_formed b ->
  is_arn_match resource_type a b = Raise (Exception (malformed_message a b)).
Proof.
  intros Ha Hb Hbucket Hmal.
  apply is_arn_match_malformed; auto.
  - now apply String.eqb_neq.
  - now apply String.eqb_neq.
  - tauto.
Qed.

Lemma C2_malformed_raises_witness :
  is_arn_match "object" "arn:aws:s3::" "arn:aws:s3:::mybucket"
  = Raise (Exception "Unexpected format for ARN: arn:aws:s3::")
  /\ is_arn_match "object" "arn:aws:s3:::mybucket" "arn:aws:s3::"
     = Raise (Exception "Unexpected format for resource: arn:aws:s3::").
Proof.
  split.
  - apply (C2_malformed_raises "object" "arn:aws:s3::" "arn:aws:s3:::mybucket");
      [discriminate | discriminate | reflexivity |].
    left. unfold well_formed. simpl. lia.
  - apply (C2_malformed_raises "object" "arn:aws:s3:::mybucket" "arn:aws:s3::");
      [discriminate | discriminate | reflexivity |].
    right. unfold well_formed. simpl. lia.
Defined.

(** C3, as stated, fails: under a bucket hint a well-formed pattern that
    contains '/' does not match itself. *)
Lemma C3_bucket_hint_breaks_reflexivity :
  ~ (forall resource_type a,
        well_formed a -> is_arn_match resource_type a a = Ok true).
Proof.
  intros H.
  assert (Hwf : well_formed "arn:aws:s3:::mybucket/key")
    by (unfold well_formed; simpl; lia).
  specialize (H "s3:bucket" "arn:aws:s3:::mybucket/key" Hwf).
  discriminate H.
Qed.

(** C3 (amended): for every hint and every well-formed pattern a on which
    the bucket exclusion does not fire (the hint does not contain "bucket"
    or a contains no '/'), the matcher applied to a and a returns true. *)
Theorem C3_reflexive (resource_type a : string) :
  well_formed a ->
  bucket_exclusion resource_type a = false ->
  is_arn_match resource_type a a = Ok true.
Proof.
  intros Hwf Hbucket.
  rewrite (is_arn_match_well_formed resource_type a a Hwf Hwf), Hbucket.
  rewrite prefix_compatible_refl. apply id_match_refl.
Qed.

Lemma C3_reflexive_witness :
  well_formed "arn:aws:s3:::mybucket/key"
  /\ bucket_exclusion "s3:object" "arn:aws:s3:::mybucket/key" = false
  /\ is_arn_match "s3:object" "arn:aws:s3:::mybucket/key" "arn:aws:s3:::mybucket/key"
     = Ok true.
Proof.
  assert (Hwf : well_formed "arn:aws:s3:::mybucket/key")
    by (unfold well_formed; simpl; lia).
  split; [exact Hwf|]. split; [reflexivity|].
  apply (C3_reflexive "s3:object" "arn:aws:s3:::mybucket/key" Hwf). reflexivity.
Defined.

(** C4: if either whole pattern is exactly "*", the matcher returns true,
    for every hint and every other argument, well-formed or not. *)
Theorem C4_universal_wildcard (resource_type a b : string) :
  a = "*" \/ b = "*" ->
  is_arn_match resource_type a b = Ok true.
Proof.
  intros [-> | ->]; unfold is_arn_match.
  - reflexivity.
  - rewrite String.eqb_refl, orb_true_r. reflexivity.
Qed.

Lemma C4_universal_wildcard_witness :
  is_arn_match "s3:bucket" "*" "mybucket" = Ok true
  /\ is_arn_match "s3:bucket" "mybucket" "*" = Ok true.
Proof.
  split.
  - apply (C4_universal_wildcard "s3:bucket" "*" "mybucket"). left. reflexivity.
  - apply (C4_universal_wildcard "s3:bucket" "mybucket" "*"). right. reflexivity.
Defined.

(** C5, as stated, fails: the code tests the identifiers for equality
    before the bracket substitution, not after it.  Here the first
    identifier "[k]a" becomes "*a", equal to the second one, and the later
    rules of the cascade answer false. *)
Lemma C5_equal_after_substitution_rejected :
  ~ (forall resource_type a b,
        well_formed a -> well_formed b ->
        bucket_exclusion resource_type b = false ->
        prefix_compatible a b = true ->
        re_sub match_bracket "*" (identifier a) = identifier b ->
        is_arn_match resource_type a b = Ok true).
Proof.
  intros H.
  assert (Ha : well_formed "arn:aws:s3:::[k]a") by (unfold well_formed; simpl; lia).
  assert (Hb : well_formed "arn:aws:s3:::*a") by (unfold well_formed; simpl; lia).
  specialize (H "object" "arn:aws:s3:::[k]a" "arn:aws:s3:::*a"
                Ha Hb eq_refl eq_refl eq_refl).
  discriminate H.
Qed.

(** C5 (amended): for well-formed patterns that pass the universal-wildcard,
    bucket-exclusion and prefix-segment rules, the equality test is made on
    the identifiers as they are and precedes the bracket substitution.  When
    the first identifier after substitution is textually equal to the second
    identifier, the matcher returns true exactly when the two identifiers
    were already equal before the substitution or the common identifier
    ends with "*"; otherwise it returns false. *)
Theorem C5_equality_before_substitution (resource_type a b : string) :
  well_formed a -> well_formed b ->
  bucket_exclusion resource_type b = false ->
  prefix_compatible a b = true ->
  re_sub match_bracket "*" (identifier a) = identifier b ->
  is_arn_match resource_type a b
  = Ok ((identifier a =? identifier b)%string || ends_with_star (identifier b)).
Proof.
  intros Ha Hb Hbucket Hprefix Hsub.
  rewrite (is_arn_match_well_formed resource_type a b Ha Hb), Hbucket, Hprefix.
  now apply id_match_normalized_equal.
Qed.

Lemma C5_equality_before_substitution_witness :
  is_arn_match "object" "arn:aws:s3:::key/[k]" "arn:aws:s3:::key/*" = Ok true.
Proof.
  apply (C5_equality_before_substitution
           "object" "arn:aws:s3:::key/[k]" "arn:aws:s3:::key/*");
    try reflexivity; unfold well_formed; simpl; lia.
Defined.

(** C6: for well-formed patterns not caught by the earlier rules, the
    segments at positions 0 to 4 are compared pairwise, a position being
    compatible exactly when either segment is "*", either is empty, or the
    two are textually equal.  An incompatible position makes the matcher
    return false; when all five are compatible the answer is that of the
    identifier cascade, and in particular true for identical identifiers. *)
Theorem C6_prefix_segments (resource_type a b : string) :
  well_formed a -> well_formed b ->
  bucket_exclusion resource_type b = false ->
  ((exists i, (i < 5)%nat /\ compatible (segment a i) (segment b i) = false) ->
   is_arn_match resource_type a b = Ok false)
  /\ ((forall i, (i < 5)%nat -> compatible (segment a i) (segment b i) = true) ->
      is_arn_match resource_type a b = id_match (identifier a) (identifier b)
      /\ (identifier a = identifier b -> is_arn_match resource_type a b = Ok true)).
Proof.
  intros Ha Hb Hbucket.
  rewrite (is_arn_match_well_formed resource_type a b Ha Hb), Hbucket.
  split.
  - intros Hbad. now rewrite (prefix_compatible_false a b Hbad).
  - intros Hall. rewrite (proj2 (prefix_compatible_true a b) Hall).
    split; [reflexivity|].
    intros ->. apply id_match_refl.
Qed.

Lemma C6_prefix_segments_witness :
  is_arn_match "object" "arn:aws:ec2:::mybucket" "arn:*:s3:::mybucket" = Ok false
  /\ is_arn_match "object" "arn:*:s3:::mybucket" "arn:aws:s3:us-east-1::mybucket" = Ok true.
Proof.
  split.
  - apply (C6_prefix_segments "object" "arn:aws:ec2:::mybucket" "arn:*:s3:::mybucket");
      [unfold well_formed; simpl; lia | unfold well_formed; simpl; lia | reflexivity |].
    exists 2%nat. split; [lia | reflexivity].
  - apply (C6_prefix_segments
             "object" "arn:*:s3:::mybucket" "arn:aws:s3:us-east-1::mybucket");
      [unfold well_formed; simpl; lia | unfold well_formed; simpl; lia
      | reflexivity | | reflexivity].
    intros i Hi. do 5 (destruct i as [|i]; [reflexivity|]). lia.
Defined.

(** C7, as stated, fails: when the matcher raises on an entry the scan
    stops there, and a later entry on which the matcher would return true
    is never emitted. *)
Lemma C7_scan_stops_at_malformed_template :
  ~ (forall iam_definition a,
        fst (get_resource_type_from_arn iam_definition a)
        = map entry_line (filter (qualifies a) (entries iam_definition))).
Proof.
  intros H.
  specialize (H [ {| service_name := "s3";
                     resources := [ {| resource := "object"; arn := "s3" |};
                                    {| resource := "bucket"; arn := "*" |} ] |} ]
                "arn:aws:s3:::mybucket").
  discriminate H.
Qed.

(** C7 (amended): for every catalog and every input arn on which the
    matcher raises for no catalog entry, the resolver takes the resource
    types of the services in catalog order, replaces every placeholder of
    the template by "*", calls the matcher with the resource type name as
    hint, the input arn as first pattern and the normalized template as
    second, and prints exactly the "service name - resource type name"
    lines of the entries on which the matcher returns true, in catalog
    order, duplicates kept, and returns normally. *)
Theorem C7_resolver_emits_matches (iam_definition : list Service) (a : string) :
  (forall e, In e (entries iam_definition) -> returns (entry_match a e)) ->
  get_resource_type_from_arn iam_definition a
  = (map entry_line (filter (qualifies a) (entries iam_definition)), Ok tt).
Proof.
  intros Hret. unfold get_resource_type_from_arn.
  rewrite for_services_scan. now rewrite scan_returns.
Qed.

Lemma C7_resolver_emits_matches_witness :
  get_resource_type_from_arn sample_catalog "arn:aws:s3:::mybucket"
  = (["s3 - bucket"], Ok tt).
Proof.
  apply (C7_resolver_emits_matches sample_catalog "arn:aws:s3:::mybucket").
  intros e He. simpl in He.
  repeat (destruct He as [<- | He]; [eexists; reflexivity|]).
  contradiction.
Defined.

(** C8, as stated, fails: "*/*" has a single colon-delimited segment, so
    the call raises instead of returning true. *)
Lemma C8_bare_identifiers_raise :
  is_arn_match "s3:object" "*/*" "*personalize*" <> Ok true.
Proof. discriminate. Qed.

(** C8 (amended): the call on the bare identifiers "*/*" and
    "*personalize*" raises the malformed-ARN error for its first argument.
    On the identifiers themselves the identifier cascade answers true, and
    so does the matcher on the full patterns "arn:*:s3:::*/*" and
    "arn:aws:s3:::*personalize*" that carry them. *)
Theorem C8_personalize_example :
  is_arn_match "s3:object" "*/*" "*personalize*"
  = Raise (Exception "Unexpected format for ARN: */*")
  /\ id_match "*/*" "*personalize*" = Ok true
  /\ identifier "arn:*:s3:::*/*" = "*/*"
  /\ identifier "arn:aws:s3:::*personalize*" = "*personalize*"
  /\ is_arn_match "s3:object" "arn:*:s3:::*/*" "arn:aws:s3:::*personalize*" = Ok true.
Proof. repeat split. Qed.

(** C9: for every hint and every pair of patterns with at least 6
    colon-delimited segments each, the matcher returns a boolean and raises
    nothing: the subscripts of the prefix loop are within the 6 segments,
    and the first- and last-character subscripts come after the emptiness
    check. *)
Theorem C9_well_formed_returns (resource_type a b : string) :
  well_formed a -> well_formed b ->
  exists v : bool, is_arn_match resource_type a b = Ok v.
Proof.
  intros Ha Hb.
  rewrite (is_arn_match_well_formed resource_type a b Ha Hb).
  destruct (bucket_exclusion resource_type b); [now exists false|].
  destruct (prefix_compatible a b); [|now exists false].
  apply id_match_returns.
Qed.

Lemma C9_well_formed_returns_witness :
  exists v : bool,
    is_arn_match "object" "arn:aws:s3:::[key]" "arn:aws:s3:::" = Ok v.
Proof.
  apply (C9_well_formed_returns "object" "arn:aws:s3:::[key]" "arn:aws:s3:::");
    unfold well_formed; simpl; lia.
Defined.

(** C10: if the matcher raises on some catalog entry, every entry before
    it having been answered, the resolver ends with that same exception,
    having printed only the lines of the qualifying entries before the
    failing one. *)
Theorem C10_resolver_propagates (iam_definition : list Service) (a : string)
        (pre post : list (Service * Resource)) (e : Service * Resource) (x : exn) :
  entries iam_definition = (pre ++ e :: post)%list ->
  (forall e', In e' pre -> returns (entry_match a e')) ->
  entry_match a e = Raise x ->
  get_resource_type_from_arn iam_definition a
  = (map entry_line (filter (qualifies a) pre), Raise x).
Proof.
  intros Hsplit Hpre He. unfold get_resource_type_from_arn.
  rewrite for_services_scan, Hsplit.
  now rewrite (scan_raises a pre post e x [] Hpre He).
Qed.

Lemma C10_resolver_propagates_witness :
  get_resource_type_from_arn broken_catalog "arn:aws:s3:::mybucket"
  = (["s3 - bucket"], Raise (Exception "Unexpected format for resource: arn:*:iam")).
Proof.
  apply (C10_resolver_propagates
           broken_catalog "arn:aws:s3:::mybucket"
           [(s3, s3_object); (s3, s3_bucket)] [(s3, s3_object); (s3, s3_bucket)]
           (iam, iam_user)
           (Exception "Unexpected format for resource: arn:*:iam")).
  - reflexivity.
  - intros e' He'. simpl in He'.
    repeat (destruct He' as [<- | He']; [eexists; reflexivity|]).
    contradiction.
  - reflexivity.
Defined.

(** ** Further properties of the primitives *)

Section SubstitutionFacts.

Lemma drop_nil (n : nat) : drop n "" = "".
Proof. now destruct n. Qed.

(** Skipping [k] characters is scanning the string without them. *)
Lemma sub_scan_skip (m : string -> option nat) (repl : string) (k : nat) (s : string) :
  sub_scan m repl k s = sub_scan m repl 0 (drop k s).
Proof.
  revert k. induction s as [|c s IH]; intros [|k]; try reflexivity.
  simpl sub_scan at 1. simpl drop. apply IH.
Qed.

(** The substitution as the usual equation: at a match, the replacement
    followed by the substitution of what follows the match; elsewhere the
    character followed by the substitution of the rest. *)
Lemma re_sub_step (m : string -> option nat) (repl : string) (c : ascii) (s : string) :
  re_sub m repl (String c s)
  = match m (String c s) with
    | Some (S k) => repl ++ re_sub m repl (drop (S k) (String c s))
    | _ => String c (re_sub m repl s)
    end.
Proof.
  unfold re_sub. simpl.
  destruct (m (String c s)) as [[|k]|]; try reflexivity.
  now rewrite sub_scan_skip.
Qed.

Lemma lazy_until_close (close : ascii) (s : string) (n : nat) :
  lazy_until close s = Some n ->
  exists k, n = S k /\ String.get k s = Some close.
Proof.
  revert n. induction s as [|c s IH]; intros n; simpl; [discriminate|].
  destruct (Ascii.eqb_spec c close) as [->|Hc].
  - intros [= <-]. now exists 0%nat.
  - destruct (Ascii.eqb c newline); [discriminate|].
    destruct (lazy_until close s) as [j|]; [|discriminate].
    intros [= <-]. destruct (IH j eq_refl) as (k & -> & Hk).
    now exists (S k).
Qed.

Lemma match_bracket_head (c : ascii) (s : string) :
  match_bracket (String c s) <> None -> c = "["%char.
Proof.
  destruct c as [[] [] [] [] [] [] [] []]; simpl; congruence.
Qed.

Lemma match_dollar_brace_head (c : ascii) (s : string) :
  match_dollar_brace (String c s) <> None -> c = "$"%char.
Proof.
  destruct c as [[] [] [] [] [] [] [] []]; simpl; congruence.
Qed.

(** A bracket match ends with the closing bracket. *)
Lemma match_bracket_close (s : string) (n : nat) :
  match_bracket s = Some n ->
  exists k, n = S k /\ String.get k s = Some "]"%char.
Proof.
  destruct s as [|c s]; [discriminate|].
  intros H.
  assert (Hc : c = "["%char) by (apply (match_bracket_head c s); congruence).
  subst c. destruct s as [|d s]; [discriminate|].
  simpl in H. destruct (Ascii.eqb d newline); [discriminate|].
  destruct (lazy_until "]" s) as [j|] eqn:Ej; [|discriminate].
  injection H as <-.
  destruct (lazy_until_close _ _ _ Ej) as (k & -> & Hk).
  now exists (S (S k)).
Qed.

(** Without the opening character nothing is substituted. *)
Lemma sub_scan_no_match (m : string -> option nat) (repl : string) (opener : ascii) (s : string) :
  (forall c t, m (String c t) <> None -> c = opener) ->
  has opener s = false ->
  re_sub m repl s = s.
Proof.
  intros Hm. induction s as [|c s IH]; [reflexivity|].
  rewrite has_cons. intros H. apply orb_false_iff in H as [Hc Hs].
  rewrite re_sub_step.
  destruct (m (String c s)) as [[|k]|] eqn:E.
  - now rewrite (IH Hs).
  - assert (c = opener) by (apply (Hm c s); congruence). subst c.
    now rewrite Ascii.eqb_refl in Hc.
  - now rewrite (IH Hs).
Qed.

End SubstitutionFacts.

(** ** The identifier cascade as a boolean *)

Section CascadeFacts.

(** The cascade raises nothing and computes [cascade]. *)
Lemma id_match_cascade (x y : string) : id_match x y = Ok (cascade x y).
Proof.
  unfold id_match, cascade.
  destruct (x =? y)%string; [reflexivity|]. simpl orb.
  generalize (re_sub match_bracket "*" x). clear x. intros x.
  destruct (negb (str_in "*" x) && negb (str_in "*" y)); [reflexivity|].
  destruct ((x =? "*")%string || (y =? "*")%string); [reflexivity|].
  destruct x as [|cx x]; [reflexivity|].
  destruct y as [|cy y]; [reflexivity|].
  change ((String cx x =? "")%string || (String cy y =? "")%string) with false.
  cbv iota.
  rewrite !str_index_first, !str_index_last, !ends_with_star_last.
  unfold and_then, or_else, bind, starts_with_star.
  rewrite !one_char_eqb.
  destruct (Ascii.eqb cx "*"), (Ascii.eqb cy "*"),
    (Ascii.eqb (last_char cx x) "*"), (Ascii.eqb (last_char cy y) "*");
    simpl;
    repeat match goal with
           | |- context [if ?c then _ else _] => destruct c; simpl
           end;
    reflexivity.
Qed.

Lemma is_arn_match_cascade (resource_type a b : string) :
  reaches_cascade resource_type a b ->
  is_arn_match resource_type a b = Ok (cascade (identifier a) (identifier b)).
Proof.
  intros (Ha & Hb & Hbucket & Hprefix).
  rewrite (is_arn_match_well_formed resource_type a b Ha Hb), Hbucket, Hprefix.
  apply id_match_cascade.
Qed.

Lemma starts_with_star_has (s : string) :
  starts_with_star s = true -> str_in "*" s = true.
Proof.
  destruct s as [|c s]; [discriminate|]. simpl starts_with_star.
  intros H. apply Ascii.eqb_eq in H. subst c.
  change (has "*" (String "*" s) = true). rewrite has_cons. reflexivity.
Qed.

Lemma no_star_starts (s : string) :
  str_in "*" s = false -> starts_with_star s = false.
Proof.
  intros H. destruct (starts_with_star s) eqn:E; [|reflexivity].
  apply starts_with_star_has in E. congruence.
Qed.

Lemma no_star_ends (s : string) :
  str_in "*" s = false -> ends_with_star s = false.
Proof.
  intros H. destruct (ends_with_star s) eqn:E; [|reflexivity].
  apply ends_with_star_has in E. congruence.
Qed.

Lemma ends_with_star_cons (c : ascii) (s : string) :
  s <> "" -> ends_with_star (String c s) = ends_with_star s.
Proof. destruct s; [congruence|reflexivity]. Qed.

Lemma ends_with_star_nonempty (s : string) :
  ends_with_star s = true -> s <> "".
Proof. now destruct s. Qed.

Lemma ends_with_star_app_star (p : string) : ends_with_star (p ++ "*") = true.
Proof.
  induction p as [|c p IH]; [reflexivity|].
  change (String c p ++ "*")%string with (String c (p ++ "*")).
  rewrite ends_with_star_cons; [exact IH|]. now destruct p.
Qed.

Lemma starts_with_star_app (p q : string) :
  p <> "" -> starts_with_star (p ++ q) = starts_with_star p.
Proof. destruct p; [congruence|reflexivity]. Qed.

(** A suffix past a character that is not an asterisk keeps the final
    asterisk. *)
Lemma ends_with_star_drop (s : string) (k : nat) (c : ascii) :
  String.get k s = Some c -> c <> "*"%char ->
  ends_with_star s = true ->
  ends_with_star (drop (S k) s) = true.
Proof.
  revert k. induction s as [|a s IH]; intros k Hget Hc Hend; [discriminate|].
  assert (Hs : s <> "").
  { intros ->. destruct k; simpl in *; [|discriminate].
    injection Hget as ->. apply Ascii.eqb_eq in Hend. congruence. }
  rewrite (ends_with_star_cons a s Hs) in Hend.
  destruct k as [|k]; [exact Hend|].
  simpl in Hget. apply (IH k Hget Hc Hend).
Qed.

(** The bracket substitution keeps a leading and a trailing asterisk. *)
Lemma re_sub_bracket_starts (s : string) :
  starts_with_star s = true ->
  starts_with_star (re_sub match_bracket "*" s) = true.
Proof.
  destruct s as [|c s]; [discriminate|]. simpl starts_with_star. intros Hc.
  rewrite re_sub_step.
  destruct (match_bracket (String c s)) as [[|k]|] eqn:E; try exact Hc.
  reflexivity.
Qed.

Lemma sub_scan_here (m : string -> option nat) (repl : string) (c : ascii) (s : string) :
  sub_scan m repl 0 (String c s)
  = match m (String c s) with
    | Some (S k) => repl ++ sub_scan m repl k s
    | _ => String c (sub_scan m repl 0 s)
    end.
Proof. reflexivity. Qed.

Lemma sub_scan_bracket_ends (s : string) (k : nat) :
  ends_with_star (drop k s) = true ->
  ends_with_star (sub_scan match_bracket "*" k s) = true.
Proof.
  revert k. induction s as [|c s IH]; intros k.
  - now rewrite drop_nil.
  - destruct k as [|k]; [|exact (IH k)].
    simpl drop. intros Hend. rewrite sub_scan_here.
    destruct (match_bracket (String c s)) as [[|j]|] eqn:E.
    + destruct s as [|d s]; [exact Hend|].
      rewrite ends_with_star_cons in Hend by discriminate.
      pose proof (IH 0%nat Hend) as H.
      rewrite ends_with_star_cons; [exact H|now apply ends_with_star_nonempty].
    + destruct (match_bracket_close _ _ E) as (i & Hi & Hget).
      injection Hi as ->.
      assert (H : ends_with_star (sub_scan match_bracket "*" i s) = true).
      { apply IH. apply (ends_with_star_drop (String c s) i "]" Hget); [discriminate|exact Hend]. }
      change ("*" ++ sub_scan match_bracket "*" i s)%string
        with (String "*" (sub_scan match_bracket "*" i s)).
      rewrite ends_with_star_cons; [exact H|now apply ends_with_star_nonempty].
    + destruct s as [|d s]; [exact Hend|].
      rewrite ends_with_star_cons in Hend by discriminate.
      pose proof (IH 0%nat Hend) as H.
      rewrite ends_with_star_cons; [exact H|now apply ends_with_star_nonempty].
Qed.

Lemma re_sub_bracket_ends (s : string) :
  ends_with_star s = true ->
  ends_with_star (re_sub match_bracket "*" s) = true.
Proof. intros H. apply sub_scan_bracket_ends. exact H. Qed.

End CascadeFacts.

(** ** Further properties of the matcher *)

Section MatcherFacts.

Lemma split_length (sep : ascii) (s : string) :
  List.length (split sep s) = S (count_char sep s).
Proof.
  induction s as [|c s IH]; [reflexivity|]. simpl.
  destruct (Ascii.eqb c sep).
  - simpl. now rewrite IH.
  - pose proof (split_not_nil sep s) as Hnil.
    destruct (split sep s) as [|seg segs]; [congruence|]. exact IH.
Qed.

Lemma well_formed_dec (s : string) : {well_formed s} + {~ well_formed s}.
Proof. unfold well_formed. apply le_dec. Qed.

Lemma is_arn_match_bucket_excluded (resource_type a b : string) :
  a <> "*" -> b <> "*" ->
  bucket_exclusion resource_type b = true ->
  is_arn_match resource_type a b = Ok false.
Proof.
  intros Ha Hb Hbucket. unfold is_arn_match.
  rewrite (proj2 (String.eqb_neq a "*") Ha), (proj2 (String.eqb_neq b "*") Hb).
  simpl orb. cbv iota. fold (bucket_exclusion resource_type b).
  now rewrite Hbucket.
Qed.

Lemma is_arn_match_star (resource_type a b : string) :
  a = "*" \/ b = "*" -> is_arn_match resource_type a b = Ok true.
Proof.
  intros [-> | ->]; unfold is_arn_match; [reflexivity|].
  now rewrite String.eqb_refl, orb_true_r.
Qed.

End MatcherFacts.

(** ** Properties beyond the claims *)

(** X1: the matcher raises exactly when neither pattern is the bare
    wildcard, the bucket exclusion does not fire and one of the patterns
    has fewer than 6 segments; the exception is then the malformed-ARN
    [Exception], never an [IndexError]. *)
Theorem X1_raises_iff (resource_type a b : string) (e : exn) :
  is_arn_match resource_type a b = Raise e
  <-> (a <> "*" /\ b <> "*"
       /\ bucket_exclusion resource_type b = false
       /\ ~ (well_formed a /\ well_formed b)
       /\ e = Exception (malformed_message a b)).
Proof.
  split.
  - intros H.
    destruct (String.eqb_spec a "*") as [Ha|Ha];
      [rewrite is_arn_match_star in H by (now left); discriminate|].
    destruct (String.eqb_spec b "*") as [Hb|Hb];
      [rewrite is_arn_match_star in H by (now right); discriminate|].
    destruct (bucket_exclusion resource_type b) eqn:Hbucket;
      [rewrite is_arn_match_bucket_excluded in H by assumption; discriminate|].
    destruct (well_formed_dec a) as [Hwa|Hwa].
    + destruct (well_formed_dec b) as [Hwb|Hwb].
      * rewrite (is_arn_match_well_formed _ _ _ Hwa Hwb), Hbucket in H.
        destruct (prefix_compatible a b); [|discriminate].
        rewrite id_match_cascade in H. discriminate.
      * rewrite is_arn_match_malformed in H
          by (try apply String.eqb_neq; tauto).
        injection H as <-. repeat split; auto. tauto.
    + rewrite is_arn_match_malformed in H
        by (try apply String.eqb_neq; tauto).
      injection H as <-. repeat split; auto. tauto.
  - intros (Ha & Hb & Hbucket & Hwf & ->).
    apply is_arn_match_malformed; auto; now apply String.eqb_neq.
Qed.

(** X2: a pattern is well-formed for the matcher, that is, split on ":"
    it has at least 6 segments, exactly when it contains at least five
    colons. *)
Theorem X2_well_formed_five_colons (s : string) :
  well_formed s <-> (5 <= count_char ":" s)%nat.
Proof.
  unfold well_formed, segments. rewrite split_length. lia.
Qed.

(** X3: the resource type only matters through its containing "bucket",
    and only when the second pattern contains a '/': two hints that agree
    on "bucket", or any two hints when the second pattern has no '/', give
    the same outcome, exceptions included. *)
Theorem X3_hint_only_through_bucket (h1 h2 a b : string) :
  str_in "bucket" h1 = str_in "bucket" h2 \/ str_in "/" b = false ->
  is_arn_match h1 a b = is_arn_match h2 a b.
Proof.
  intros H. unfold is_arn_match.
  destruct ((a =? "*")%string || (b =? "*")%string); [reflexivity|].
  assert (Hb : str_in "bucket" h1 && str_in "/" b = str_in "bucket" h2 && str_in "/" b).
  { destruct H as [-> | ->]; [reflexivity|]. now rewrite !andb_false_r. }
  now rewrite Hb.
Qed.

Lemma X3_hint_only_through_bucket_witness :
  is_arn_match "s3:bucket" "arn:aws:s3:::my*" "arn:*:s3:::*/*"
  = is_arn_match "bucket" "arn:aws:s3:::my*" "arn:*:s3:::*/*"
  /\ is_arn_match "s3:bucket" "arn:aws:s3:::my*" "arn:*:s3:::*"
     = is_arn_match "object" "arn:aws:s3:::my*" "arn:*:s3:::*".
Proof.
  split.
  - apply (X3_hint_only_through_bucket "s3:bucket" "bucket"). left. reflexivity.
  - apply (X3_hint_only_through_bucket "s3:bucket" "object"). right. reflexivity.
Defined.

Section SliceFacts.

Lemma length_app (p q : string) :
  String.length (p ++ q) = (String.length p + String.length q)%nat.
Proof. induction p as [|c p IH]; simpl; [reflexivity|now rewrite IH]. Qed.

Lemma len_app_star (p : string) : len (p ++ "*") - 1 = len p.
Proof. unfold len. rewrite length_app. simpl. lia. Qed.

Lemma substring_0_0 (s : string) : String.substring 0 0 s = "".
Proof. now destruct s. Qed.

Lemma substring_0_app (p q : string) :
  String.substring 0 (String.length p) (p ++ q) = p.
Proof.
  induction p as [|c p IH]; [apply substring_0_0|].
  simpl. now rewrite IH.
Qed.

(** [(p + "*")[:-1]] is [p]. *)
Lemma str_slice_drop_star (p : string) :
  str_slice (p ++ "*") None (Some (-1)) = p.
Proof.
  unfold str_slice, bounds, clip, len. change (-1 <? 0) with true. cbv iota.
  rewrite length_app. simpl String.length.
  replace (Z.to_nat (Z.max 0 (-1 + Z.of_nat (String.length p + 1)) - 0))
    with (String.length p) by lia.
  apply substring_0_app.
Qed.

(** [("*" + p + "*")[1:-1]] is [p]. *)
Lemma str_slice_inner (p : string) :
  str_slice ("*" ++ p ++ "*") (Some 1) (Some (-1)) = p.
Proof.
  unfold str_slice, bounds, clip, len.
  change (1 <? 0) with false. change (-1 <? 0) with true. cbv iota.
  change ("*" ++ p ++ "*")%string with (String "*" (p ++ "*")).
  simpl String.length. rewrite length_app. simpl String.length.
  replace (Z.to_nat (Z.min 1 (Z.of_nat (S (String.length p + 1))))) with 1%nat by lia.
  replace (Z.to_nat (Z.max 0 (-1 + Z.of_nat (S (String.length p + 1)))
                     - Z.min 1 (Z.of_nat (S (String.length p + 1)))))
    with (String.length p) by lia.
  simpl. apply substring_0_app.
Qed.

Lemma substring_prefix (p x : string) :
  (String.substring 0 (Nat.min (String.length p) (String.length x)) x =? p)%string
  = String.prefix p x.
Proof.
  revert x. induction p as [|a p IH]; intros x.
  - simpl. rewrite substring_0_0. now destruct x.
  - destruct x as [|b x]; [reflexivity|].
    simpl. rewrite IH.
    destruct (Ascii.ascii_dec a b) as [->|Hne].
    + now rewrite Ascii.eqb_refl.
    + destruct (Ascii.eqb_spec b a); [congruence|reflexivity].
Qed.

(** [x[:len(p)] == p] is the test that [p] is a prefix of [x]. *)
Lemma str_slice_prefix (p x : string) :
  (str_slice x None (Some (len p)) =? p)%string = String.prefix p x.
Proof.
  unfold str_slice, bounds, clip, len.
  destruct (Z.ltb_spec (Z.of_nat (String.length p)) 0) as [Hlt|_]; [lia|].
  replace (Z.to_nat (Z.min (Z.of_nat (String.length p)) (Z.of_nat (String.length x)) - 0))
    with (Nat.min (String.length p) (String.length x)) by lia.
  apply substring_prefix.
Qed.

(** A slice from the start that begins with [c] comes from a string that
    begins with [c]. *)
Lemma str_slice_head (x : string) (hi : Z) (c : ascii) (t : string) :
  str_slice x None (Some hi) = String c t -> exists x', x = String c x'.
Proof.
  unfold str_slice, bounds. simpl Z.to_nat.
  destruct x as [|b x]; [now destruct (Z.to_nat _)|].
  destruct (Z.to_nat (clip (len (String b x)) hi - 0)); simpl; [discriminate|].
  intros [= -> _]. now exists x.
Qed.

End SliceFacts.

Section CascadeRules.

Lemma eqb_empty_false (s : string) : s <> "" -> (s =? "")%string = false.
Proof. now destruct s. Qed.

Lemma starts_with_star_nonempty (s : string) :
  starts_with_star s = true -> s <> "".
Proof. now destruct s. Qed.

Lemma cascade_sym (x y : string) :
  re_sub match_bracket "*" x = x -> re_sub match_bracket "*" y = y ->
  cascade x y = cascade y x.
Proof.
  intros Hx Hy. unfold cascade; cbv zeta. rewrite Hx, Hy, (String.eqb_sym y x).
  destruct (x =? y)%string; [reflexivity|]. simpl orb.
  destruct (str_in "*" x), (str_in "*" y); simpl; try reflexivity;
    destruct (x =? "*")%string, (y =? "*")%string; simpl; try reflexivity;
    destruct (x =? "")%string, (y =? "")%string; simpl; try reflexivity;
    destruct (starts_with_star x), (ends_with_star x),
      (starts_with_star y), (ends_with_star y); simpl; try reflexivity;
    repeat match goal with
           | |- context [str_in ?u ?v] => destruct (str_in u v); simpl
           | |- context [(?u =? ?v)%string] => destruct (u =? v)%string; simpl
           end; reflexivity.
Qed.

Lemma compatible_sym (a r : string) : compatible a r = compatible r a.
Proof.
  unfold compatible. rewrite (String.eqb_sym r a).
  destruct (a =? "*")%string, (a =? "")%string, (r =? "*")%string,
    (r =? "")%string, (a =? r)%string; reflexivity.
Qed.

Lemma prefix_compatible_sym (a b : string) :
  prefix_compatible a b = prefix_compatible b a.
Proof.
  unfold prefix_compatible.
  induction (seq 0 5) as [|i l IH]; [reflexivity|].
  simpl. now rewrite IH, compatible_sym.
Qed.

Lemma cascade_no_trailing_star (x y : string) :
  ends_with_star (re_sub match_bracket "*" x) = false ->
  ends_with_star y = false ->
  cascade x y = (x =? y)%string.
Proof.
  intros Hx Hy. unfold cascade; cbv zeta.
  destruct (x =? y)%string; [reflexivity|]. simpl orb.
  destruct (negb _ && negb _); [reflexivity|].
  destruct (String.eqb_spec (re_sub match_bracket "*" x) "*") as [E|_];
    [rewrite E in Hx; discriminate|].
  destruct (String.eqb_spec y "*") as [E|_]; [rewrite E in Hy; discriminate|].
  simpl orb. cbv iota.
  destruct (_ || _); [reflexivity|].
  rewrite Hx, Hy.
  destruct (starts_with_star _), (starts_with_star y); reflexivity.
Qed.

Lemma cascade_empty_resource (x : string) :
  cascade x "" = (x =? "")%string || (re_sub match_bracket "*" x =? "*")%string.
Proof.
  unfold cascade; cbv zeta.
  destruct (x =? "")%string; [reflexivity|]. simpl orb.
  change ("" =? "*")%string with false. change ("" =? "")%string with true.
  destruct (String.eqb_spec (re_sub match_bracket "*" x) "*") as [E|_];
    [now rewrite E|].
  destruct (negb _ && true); [reflexivity|]. simpl orb. cbv iota.
  now destruct (_ =? "")%string.
Qed.

Lemma cascade_empty_arn (y : string) :
  cascade "" y = (y =? "")%string || (y =? "*")%string.
Proof.
  unfold cascade; cbv zeta. rewrite (String.eqb_sym "" y).
  destruct (y =? "")%string; [reflexivity|]. simpl orb.
  change (re_sub match_bracket "*" "") with "".
  destruct (String.eqb_spec y "*") as [->|_]; [reflexivity|].
  simpl. now destruct (negb (str_in "*" y)).
Qed.

Lemma cascade_wrap_around (x y : string) :
  starts_with_star x = true /\ ends_with_star y = true
  \/ ends_with_star x = true /\ starts_with_star y = true ->
  cascade x y = true.
Proof.
  intros H. unfold cascade; cbv zeta.
  destruct (x =? y)%string; [reflexivity|]. simpl orb.
  set (x' := re_sub match_bracket "*" x).
  assert (H' : starts_with_star x' = true /\ ends_with_star y = true
               \/ ends_with_star x' = true /\ starts_with_star y = true).
  { destruct H as [[Hs He]|[He Hs]]; [left|right]; split; auto.
    - now apply re_sub_bracket_starts.
    - now apply re_sub_bracket_ends. }
  clearbody x'. clear H.
  assert (Hx : str_in "*" x' = true)
    by (destruct H' as [[Hs _]|[He _]];
        [now apply starts_with_star_has | now apply ends_with_star_has]).
  rewrite Hx. simpl andb. cbv iota.
  destruct (_ || _); [reflexivity|].
  assert (Hne : x' <> "" /\ y <> "").
  { destruct H' as [[Hs He]|[He Hs]]; split;
      auto using starts_with_star_nonempty, ends_with_star_nonempty. }
  destruct Hne as [Hx' Hy'].
  rewrite (eqb_empty_false _ Hx'), (eqb_empty_false _ Hy'). simpl orb. cbv iota.
  destruct H' as [[-> ->]|[-> ->]]; [reflexivity|].
  simpl. now destruct (starts_with_star x'), (ends_with_star y).
Qed.

End CascadeRules.

Section WildcardShapes.

Lemma re_sub_bracket_no_opener (s : string) :
  has "[" s = false -> re_sub match_bracket "*" s = s.
Proof. apply sub_scan_no_match. exact match_bracket_head. Qed.

Lemma star_suffix_has_star (p : string) : str_in "*" (p ++ "*") = true.
Proof. apply ends_with_star_has, ends_with_star_app_star. Qed.

Lemma app_star_nonempty (p : string) : (p ++ "*")%string <> "".
Proof. now destruct p. Qed.

Lemma literal_not_star (x : string) :
  str_in "*" x = false -> (x =? "*")%string = false.
Proof.
  intros H. destruct (String.eqb_spec x "*") as [E|_]; [|reflexivity].
  now rewrite E in H.
Qed.

Lemma literal_not_eq (x y : string) :
  str_in "*" x = false -> str_in "*" y = true -> (x =? y)%string = false.
Proof.
  intros Hx Hy. destruct (String.eqb_spec x y) as [E|_]; [|reflexivity].
  congruence.
Qed.

(** A literal against [p*]: the test that [p] is a prefix. *)
Lemma cascade_suffix_resource (x p : string) :
  str_in "*" x = false -> has "[" x = false ->
  starts_with_star p = false ->
  cascade x (p ++ "*") = String.prefix p x.
Proof.
  intros Hstar Hopen Hp. unfold cascade; cbv zeta.
  rewrite (re_sub_bracket_no_opener x Hopen).
  rewrite (literal_not_eq x _ Hstar (star_suffix_has_star p)).
  rewrite Hstar, (star_suffix_has_star p), (literal_not_star x Hstar).
  rewrite (no_star_starts x Hstar), (no_star_ends x Hstar).
  rewrite ends_with_star_app_star, len_app_star, str_slice_drop_star, str_slice_prefix.
  simpl andb. simpl orb. cbv iota.
  destruct p as [|c p]; [now destruct x|].
  simpl in Hp. simpl. rewrite Hp.
  destruct x as [|b x]; [reflexivity|]. simpl.
  now destruct (Ascii.ascii_dec c b), (String.prefix p x).
Qed.

(** [p*] against a literal: the test that [p] is a prefix. *)
Lemma cascade_suffix_arn (p y : string) :
  has "[" p = false -> starts_with_star p = false ->
  str_in "*" y = false ->
  cascade (p ++ "*") y = String.prefix p y.
Proof.
  intros Hopen Hp Hstar. unfold cascade; cbv zeta.
  rewrite re_sub_bracket_no_opener by (rewrite has_app, Hopen; reflexivity).
  rewrite (String.eqb_sym (p ++ "*") y).
  rewrite (literal_not_eq y _ Hstar (star_suffix_has_star p)).
  rewrite Hstar, (star_suffix_has_star p), (literal_not_star y Hstar).
  rewrite (no_star_starts y Hstar), (no_star_ends y Hstar).
  rewrite ends_with_star_app_star, len_app_star, str_slice_drop_star, str_slice_prefix.
  simpl andb. simpl orb. cbv iota. rewrite !andb_false_r, !orb_false_r.
  destruct p as [|c p]; [now destruct y|].
  simpl in Hp. simpl. rewrite Hp.
  destruct y as [|b y]; [reflexivity|]. simpl.
  now destruct (Ascii.ascii_dec c b), (String.prefix p y).
Qed.

Lemma starred_has_star (t : string) : str_in "*" (String "*" t) = true.
Proof. now apply starts_with_star_has. Qed.

Lemma slice_of_literal_not_starred (y : string) (hi : Z) (p : string) :
  str_in "*" y = false ->
  (str_slice y None (Some hi) =? String "*" p)%string = false.
Proof.
  intros Hstar.
  destruct (String.eqb_spec (str_slice y None (Some hi)) (String "*" p)) as [E|_];
    [|reflexivity].
  destruct (str_slice_head _ _ _ _ E) as [y' ->].
  change (has "*" (String "*" y') = false) in Hstar.
  rewrite has_cons in Hstar. discriminate.
Qed.

(** [*p*] against a non-empty literal: the test that [p] occurs in it. *)
Lemma cascade_contains_arn (p y : string) :
  has "[" p = false -> str_in "*" y = false -> y <> "" ->
  cascade ("*" ++ p ++ "*") y = str_in p y.
Proof.
  intros Hopen Hstar Hy. unfold cascade; cbv zeta.
  rewrite re_sub_bracket_no_opener
    by (change ("*" ++ p ++ "*")%string with (String "*" (p ++ "*"));
        rewrite has_cons, has_app, Hopen; reflexivity).
  rewrite (String.eqb_sym _ y).
  rewrite (literal_not_eq y ("*" ++ p ++ "*") Hstar (starred_has_star _)).
  rewrite Hstar, (literal_not_star y Hstar), (eqb_empty_false y Hy).
  rewrite (no_star_starts y Hstar), (no_star_ends y Hstar).
  rewrite str_slice_inner.
  change ("*" ++ p ++ "*")%string with (String "*" p ++ "*")%string.
  rewrite str_slice_drop_star, (slice_of_literal_not_starred y _ p Hstar).
  rewrite ends_with_star_app_star.
  change (String "*" p ++ "*")%string with (String "*" (p ++ "*")).
  rewrite (starred_has_star (p ++ "*")).
  simpl. rewrite (eqb_empty_false (p ++ "*") (app_star_nonempty p)).
  now destruct (str_in p y).
Qed.

(** A non-empty literal against [*p*]: the test that [p] occurs in it. *)
Lemma cascade_contains_resource (x p : string) :
  str_in "*" x = false -> has "[" x = false -> x <> "" ->
  cascade x ("*" ++ p ++ "*") = str_in p x.
Proof.
  intros Hstar Hopen Hx. unfold cascade; cbv zeta.
  rewrite (re_sub_bracket_no_opener x Hopen).
  rewrite (literal_not_eq x ("*" ++ p ++ "*") Hstar (starred_has_star _)).
  rewrite Hstar, (literal_not_star x Hstar), (eqb_empty_false x Hx).
  rewrite (no_star_starts x Hstar), (no_star_ends x Hstar).
  rewrite str_slice_inner.
  change ("*" ++ p ++ "*")%string with (String "*" p ++ "*")%string.
  rewrite str_slice_drop_star, (slice_of_literal_not_starred x _ p Hstar).
  rewrite ends_with_star_app_star.
  change (String "*" p ++ "*")%string with (String "*" (p ++ "*")).
  rewrite (starred_has_star (p ++ "*")).
  simpl. rewrite (eqb_empty_false (p ++ "*") (app_star_nonempty p)).
  now destruct (str_in p x).
Qed.

End WildcardShapes.

(** X4: outside the bucket exclusion and the bracket substitution the
    matcher is symmetric: for well-formed patterns on which the exclusion
    fires in neither order and whose identifiers contain no '[', swapping
    the two patterns does not change the answer. *)
Theorem X4_symmetric_without_brackets (resource_type a b : string) :
  well_formed a -> well_formed b ->
  bucket_exclusion resource_type a = false ->
  bucket_exclusion resource_type b = false ->
  has "[" (identifier a) = false -> has "[" (identifier b) = false ->
  is_arn_match resource_type a b = is_arn_match resource_type b a.
Proof.
  intros Ha Hb Hba Hbb Hoa Hob.
  rewrite (is_arn_match_well_formed _ a b Ha Hb), (is_arn_match_well_formed _ b a Hb Ha).
  rewrite Hba, Hbb, (prefix_compatible_sym b a), !id_match_cascade.
  rewrite (cascade_sym (identifier a) (identifier b));
    auto using re_sub_bracket_no_opener.
Qed.

Lemma X4_symmetric_without_brackets_witness :
  is_arn_match "object" "arn:*:s3:::*/*" "arn:aws:s3:::mybucket*"
  = is_arn_match "object" "arn:aws:s3:::mybucket*" "arn:*:s3:::*/*".
Proof.
  apply (X4_symmetric_without_brackets
           "object" "arn:*:s3:::*/*" "arn:aws:s3:::mybucket*");
    try reflexivity; unfold well_formed; simpl; lia.
Defined.

(** X5: when neither identifier ends with an asterisk (the first one taken
    after the bracket substitution), patterns that reach the identifier
    cascade match only if their identifiers are textually equal. *)
Theorem X5_no_trailing_star_only_equal (resource_type a b : string) :
  reaches_cascade resource_type a b ->
  ends_with_star (re_sub match_bracket "*" (identifier a)) = false ->
  ends_with_star (identifier b) = false ->
  is_arn_match resource_type a b = Ok (identifier a =? identifier b)%string.
Proof.
  intros Hreach Ha Hb.
  rewrite (is_arn_match_cascade _ _ _ Hreach).
  now rewrite cascade_no_trailing_star.
Qed.

Lemma X5_no_trailing_star_only_equal_witness :
  is_arn_match "object" "arn:*:s3:::*mybucket" "arn:aws:s3:::*myotherthing" = Ok false.
Proof.
  apply (X5_no_trailing_star_only_equal
           "object" "arn:*:s3:::*mybucket" "arn:aws:s3:::*myotherthing");
    try reflexivity.
  repeat split; try reflexivity; unfold well_formed; simpl; lia.
Defined.

(** X6: against a second pattern whose identifier is empty, patterns that
    reach the identifier cascade match exactly when the first identifier is
    empty too or becomes "*" by the bracket substitution. *)
Theorem X6_empty_resource_identifier (resource_type a b : string) :
  reaches_cascade resource_type a b ->
  identifier b = "" ->
  is_arn_match resource_type a b
  = Ok ((identifier a =? "")%string
        || (re_sub match_bracket "*" (identifier a) =? "*")%string).
Proof.
  intros Hreach Hb.
  rewrite (is_arn_match_cascade _ _ _ Hreach), Hb.
  now rewrite cascade_empty_resource.
Qed.

Lemma X6_empty_resource_identifier_witness :
  is_arn_match "object" "arn:aws:s3:::[key]" "arn:aws:s3:::" = Ok true
  /\ is_arn_match "object" "arn:aws:s3:::mybucket*" "arn:aws:s3:::" = Ok false.
Proof.
  split.
  - apply (X6_empty_resource_identifier "object" "arn:aws:s3:::[key]" "arn:aws:s3:::");
      [|reflexivity].
    repeat split; try reflexivity; unfold well_formed; simpl; lia.
  - apply (X6_empty_resource_identifier "object" "arn:aws:s3:::mybucket*" "arn:aws:s3:::");
      [|reflexivity].
    repeat split; try reflexivity; unfold well_formed; simpl; lia.
Defined.

(** X7: with a first pattern whose identifier is empty, patterns that
    reach the identifier cascade match exactly when the second identifier
    is empty or "*". *)
Theorem X7_empty_arn_identifier (resource_type a b : string) :
  reaches_cascade resource_type a b ->
  identifier a = "" ->
  is_arn_match resource_type a b
  = Ok ((identifier b =? "")%string || (identifier b =? "*")%string).
Proof.
  intros Hreach Ha.
  rewrite (is_arn_match_cascade _ _ _ Hreach), Ha.
  now rewrite cascade_empty_arn.
Qed.

Lemma X7_empty_arn_identifier_witness :
  is_arn_match "object" "arn:aws:s3:::" "arn:aws:s3:::mybucket*" = Ok false
  /\ is_arn_match "object" "arn:aws:s3:::" "arn:aws:s3:::*" = Ok true.
Proof.
  split.
  - apply (X7_empty_arn_identifier "object" "arn:aws:s3:::" "arn:aws:s3:::mybucket*");
      [|reflexivity].
    repeat split; try reflexivity; unfold well_formed; simpl; lia.
  - apply (X7_empty_arn_identifier "object" "arn:aws:s3:::" "arn:aws:s3:::*");
      [|reflexivity].
    repeat split; try reflexivity; unfold well_formed; simpl; lia.
Defined.

(** X8: patterns that reach the identifier cascade match whenever one
    identifier begins with an asterisk and the other ends with one, in
    either order; the bracket substitution does not get in the way. *)
Theorem X8_wrap_around (resource_type a b : string) :
  reaches_cascade resource_type a b ->
  starts_with_star (identifier a) = true /\ ends_with_star (identifier b) = true
  \/ ends_with_star (identifier a) = true /\ starts_with_star (identifier b) = true ->
  is_arn_match resource_type a b = Ok true.
Proof.
  intros Hreach H.
  rewrite (is_arn_match_cascade _ _ _ Hreach).
  now rewrite cascade_wrap_around.
Qed.

Lemma X8_wrap_around_witness :
  is_arn_match "object" "arn:*:s3:::*[key]/x" "arn:aws:s3:::my:bucket*" = Ok true
  /\ is_arn_match "object" "arn:*:s3:::[key]/x*" "arn:aws:s3:::*mybucket" = Ok true.
Proof.
  split.
  - apply (X8_wrap_around "object" "arn:*:s3:::*[key]/x" "arn:aws:s3:::my:bucket*").
    + repeat split; try reflexivity; unfold well_formed; simpl; lia.
    + left. split; reflexivity.
  - apply (X8_wrap_around "object" "arn:*:s3:::[key]/x*" "arn:aws:s3:::*mybucket").
    + repeat split; try reflexivity; unfold well_formed; simpl; lia.
    + right. split; reflexivity.
Defined.

(** X9: a first identifier without '*' or '[' against a second identifier
    of the form p* (p not starting with '*'): patterns that reach the
    identifier cascade match exactly when p is a prefix of the first
    identifier. *)
Theorem X9_literal_against_suffix_star (resource_type a b p : string) :
  reaches_cascade resource_type a b ->
  str_in "*" (identifier a) = false -> has "[" (identifier a) = false ->
  identifier b = (p ++ "*")%string -> starts_with_star p = false ->
  is_arn_match resource_type a b = Ok (String.prefix p (identifier a)).
Proof.
  intros Hreach Hstar Hopen Hb Hp.
  rewrite (is_arn_match_cascade _ _ _ Hreach), Hb.
  now rewrite cascade_suffix_resource.
Qed.

Lemma X9_literal_against_suffix_star_witness :
  is_arn_match "object" "arn:aws:s3:::mybucket/key" "arn:aws:s3:::mybucket/*" = Ok true
  /\ is_arn_match "object" "arn:aws:s3:::mybucket/key" "arn:aws:s3:::other/*" = Ok false.
Proof.
  split.
  - apply (X9_literal_against_suffix_star
             "object" "arn:aws:s3:::mybucket/key" "arn:aws:s3:::mybucket/*" "mybucket/");
      try reflexivity.
    repeat split; try reflexivity; unfold well_formed; simpl; lia.
  - apply (X9_literal_against_suffix_star
             "object" "arn:aws:s3:::mybucket/key" "arn:aws:s3:::other/*" "other/");
      try reflexivity.
    repeat split; try reflexivity; unfold well_formed; simpl; lia.
Defined.

(** X10: a first identifier of the form p* (p without '[' and not starting
    with '*') against a second identifier without '*': patterns that reach
    the identifier cascade match exactly when p is a prefix of the second
    identifier. *)
Theorem X10_suffix_star_against_literal (resource_type a b p : string) :
  reaches_cascade resource_type a b ->
  identifier a = (p ++ "*")%string ->
  has "[" p = false -> starts_with_star p = false ->
  str_in "*" (identifier b) = false ->
  is_arn_match resource_type a b = Ok (String.prefix p (identifier b)).
Proof.
  intros Hreach Ha Hopen Hp Hstar.
  rewrite (is_arn_match_cascade _ _ _ Hreach), Ha.
  now rewrite cascade_suffix_arn.
Qed.

Lemma X10_suffix_star_against_literal_witness :
  is_arn_match "object" "arn:aws:s3:::mybucket*" "arn:aws:s3:::mybucketotherthing"
  = Ok true.
Proof.
  apply (X10_suffix_star_against_literal
           "object" "arn:aws:s3:::mybucket*" "arn:aws:s3:::mybucketotherthing" "mybucket");
    try reflexivity.
  repeat split; try reflexivity; unfold well_formed; simpl; lia.
Defined.

(** X11: a first identifier of the form *p* (p without '[') against a
    non-empty second identifier without '*': patterns that reach the
    identifier cascade match exactly when p occurs in the second
    identifier. *)
Theorem X11_contains_against_literal (resource_type a b p : string) :
  reaches_cascade resource_type a b ->
  identifier a = ("*" ++ p ++ "*")%string -> has "[" p = false ->
  str_in "*" (identifier b) = false -> identifier b <> "" ->
  is_arn_match resource_type a b = Ok (str_in p (identifier b)).
Proof.
  intros Hreach Ha Hopen Hstar Hb.
  rewrite (is_arn_match_cascade _ _ _ Hreach), Ha.
  now rewrite cascade_contains_arn.
Qed.

Lemma X11_contains_against_literal_witness :
  is_arn_match "object" "arn:*:s3:::*/*" "arn:aws:s3:::mybucket" = Ok false
  /\ is_arn_match "object" "arn:*:s3:::*/*" "arn:aws:s3:::mybucket/abc" = Ok true.
Proof.
  split.
  - apply (X11_contains_against_literal
             "object" "arn:*:s3:::*/*" "arn:aws:s3:::mybucket" "/");
      try reflexivity; try discriminate.
    repeat split; try reflexivity; unfold well_formed; simpl; lia.
  - apply (X11_contains_against_literal
             "object" "arn:*:s3:::*/*" "arn:aws:s3:::mybucket/abc" "/");
      try reflexivity; try discriminate.
    repeat split; try reflexivity; unfold well_formed; simpl; lia.
Defined.

(** X12: a non-empty first identifier without '*' or '[' against a second
    identifier of the form *p*: patterns that reach the identifier cascade
    match exactly when p occurs in the first identifier. *)
Theorem X12_literal_against_contains (resource_type a b p : string) :
  reaches_cascade resource_type a b ->
  str_in "*" (identifier a) = false -> has "[" (identifier a) = false ->
  identifier a <> "" ->
  identifier b = ("*" ++ p ++ "*")%string ->
  is_arn_match resource_type a b = Ok (str_in p (identifier a)).
Proof.
  intros Hreach Hstar Hopen Ha Hb.
  rewrite (is_arn_match_cascade _ _ _ Hreach), Hb.
  now rewrite cascade_contains_resource.
Qed.

Lemma X12_literal_against_contains_witness :
  is_arn_match "object" "arn:aws:s3:::my-personalize-data" "arn:aws:s3:::*personalize*"
  = Ok true.
Proof.
  apply (X12_literal_against_contains
           "object" "arn:aws:s3:::my-personalize-data" "arn:aws:s3:::*personalize*"
           "personalize");
    try reflexivity; try discriminate.
  repeat split; try reflexivity; unfold well_formed; simpl; lia.
Defined.

Section SegmentFacts.

Lemma has_segments (c sep : ascii) (s : string) :
  c <> sep -> has c s = existsb (has c) (split sep s).
Proof.
  intros Hc. induction s as [|a s IH]; [reflexivity|].
  rewrite has_cons, IH. simpl split.
  destruct (Ascii.eqb_spec a sep) as [->|Hne].
  - simpl. now rewrite (proj2 (Ascii.eqb_neq c sep) Hc).
  - pose proof (split_not_nil sep s) as Hnil.
    destruct (split sep s) as [|seg segs]; [congruence|].
    simpl. rewrite has_cons. now rewrite orb_assoc.
Qed.

Lemma existsb_firstn_skipn {A : Type} (f : A -> bool) (n : nat) (xs : list A) :
  existsb f xs = existsb f (firstn n xs) || existsb f (skipn n xs).
Proof. now rewrite <- existsb_app, firstn_skipn. Qed.

Lemma firstn_5_segments (s t : string) :
  well_formed s -> well_formed t ->
  (forall i, (i < 5)%nat -> segment s i = segment t i) ->
  firstn 5 (segments s) = firstn 5 (segments t).
Proof.
  unfold well_formed, segment. intros Hs Ht H.
  destruct (segments s) as [|s0 [|s1 [|s2 [|s3 [|s4 [|s5 ls]]]]]]; simpl in Hs; try lia.
  destruct (segments t) as [|t0 [|t1 [|t2 [|t3 [|t4 [|t5 lt]]]]]]; simpl in Ht; try lia.
  pose proof (H 0%nat) as H0. pose proof (H 1%nat) as H1. pose proof (H 2%nat) as H2.
  pose proof (H 3%nat) as H3. pose proof (H 4%nat) as H4.
  simpl in *.
  rewrite H0, H1, H2, H3, H4 by lia. reflexivity.
Qed.

Lemma has_through_segments (c : ascii) (s t : string) :
  c <> ":"%char ->
  firstn 5 (segments s) = firstn 5 (segments t) ->
  identifier s = identifier t ->
  has c s = has c t.
Proof.
  intros Hc Hfirst Hid.
  rewrite (has_segments c ":" s Hc), (has_segments c ":" t Hc).
  fold (segments s) (segments t).
  rewrite (existsb_firstn_skipn _ 5 (segments s)), (existsb_firstn_skipn _ 5 (segments t)).
  rewrite <- !has_join. fold (identifier s) (identifier t).
  now rewrite Hfirst, Hid.
Qed.

Lemma prefix_compatible_through_segments (a a' b b' : string) :
  (forall i, (i < 5)%nat -> segment a i = segment a' i) ->
  (forall i, (i < 5)%nat -> segment b i = segment b' i) ->
  prefix_compatible a b = prefix_compatible a' b'.
Proof.
  intros Ha Hb. unfold prefix_compatible. simpl.
  rewrite (Ha 0%nat), (Ha 1%nat), (Ha 2%nat), (Ha 3%nat), (Ha 4%nat) by lia.
  rewrite (Hb 0%nat), (Hb 1%nat), (Hb 2%nat), (Hb 3%nat), (Hb 4%nat) by lia.
  reflexivity.
Qed.

End SegmentFacts.

(** X13: the matcher sees a well-formed pattern only through its first
    five segments and its identifier, in which the colons of the resource
    part are dropped: two pairs of well-formed patterns that agree on those
    get the same answer. *)
Theorem X13_through_segments_and_identifier (resource_type a a' b b' : string) :
  well_formed a -> well_formed a' -> well_formed b -> well_formed b' ->
  (forall i, (i < 5)%nat -> segment a i = segment a' i) ->
  identifier a = identifier a' ->
  (forall i, (i < 5)%nat -> segment b i = segment b' i) ->
  identifier b = identifier b' ->
  is_arn_match resource_type a b = is_arn_match resource_type a' b'.
Proof.
  intros Ha Ha' Hb Hb' Hsa Hia Hsb Hib.
  rewrite (is_arn_match_well_formed _ a b Ha Hb), (is_arn_match_well_formed _ a' b' Ha' Hb').
  rewrite (prefix_compatible_through_segments a a' b b' Hsa Hsb), Hia, Hib.
  unfold bucket_exclusion.
  change (str_in "/" b) with (has "/" b). change (str_in "/" b') with (has "/" b').
  rewrite (has_through_segments "/" b b'); auto; [discriminate|].
  now apply firstn_5_segments.
Qed.

Lemma X13_through_segments_and_identifier_witness :
  is_arn_match "log-group" "arn:aws:logs:us-east-1:123:log-group:*"
               "arn:aws:logs:::log-group:/aws/elasticbeanstalk*"
  = is_arn_match "log-group" "arn:aws:logs:us-east-1:123:log-group*"
                 "arn:aws:logs:::log-group/aws:/elasticbeanstalk*".
Proof.
  apply (X13_through_segments_and_identifier
           "log-group"
           "arn:aws:logs:us-east-1:123:log-group:*"
           "arn:aws:logs:us-east-1:123:log-group*"
           "arn:aws:logs:::log-group:/aws/elasticbeanstalk*"
           "arn:aws:logs:::log-group/aws:/elasticbeanstalk*");
    try reflexivity; try (unfold well_formed; simpl; lia);
    intros i Hi; do 5 (destruct i as [|i]; [reflexivity|]); lia.
Defined.

(** X14: the two substitutions leave alone what cannot hold a placeholder:
    an identifier without '[' goes through the bracket substitution
    unchanged, and a template without '$' is matched as it is. *)
Theorem X14_substitution_needs_opener (s : string) :
  (has "[" s = false -> re_sub match_bracket "*" s = s)
  /\ (has "$" s = false -> re_sub match_dollar_brace "*" s = s).
Proof.
  split.
  - apply re_sub_bracket_no_opener.
  - apply sub_scan_no_match. exact match_dollar_brace_head.
Qed.

(** ** Further properties of the resolver *)

Section ResolverFacts.

Variable arn : string.

(** Lines already printed are never touched again. *)
Lemma scan_stdout (es : list (Service * Resource)) (stdout : list string) :
  scan arn es stdout
  = ((stdout ++ fst (scan arn es []))%list, snd (scan arn es [])).
Proof.
  revert stdout. induction es as [|e es IH]; intros stdout.
  - simpl. now rewrite app_nil_r.
  - simpl. destruct (entry_match arn e) as [[|]|x].
    + rewrite (IH (stdout ++ [entry_line e])%list), (IH [entry_line e]).
      simpl. now rewrite <- app_assoc.
    + apply IH.
    + simpl. now rewrite app_nil_r.
Qed.

Lemma filter_all {A : Type} (f : A -> bool) (xs : list A) :
  (forall x, In x xs -> f x = true) -> filter f xs = xs.
Proof.
  induction xs as [|x xs IH]; intros H; [reflexivity|].
  simpl. rewrite (H x (or_introl eq_refl)), IH; [reflexivity|].
  intros y Hy. apply H. now right.
Qed.

(** The scan stops at the first entry on which the matcher raises. *)
Lemma scan_outcome (es : list (Service * Resource)) :
  exists pre post,
    es = (pre ++ post)%list
    /\ (forall e, In e pre -> returns (entry_match arn e))
    /\ fst (scan arn es []) = map entry_line (filter (qualifies arn) pre)
    /\ match post with
       | [] => snd (scan arn es []) = Ok tt
       | e :: _ => exists x, entry_match arn e = Raise x
                             /\ snd (scan arn es []) = Raise x
       end.
Proof.
  induction es as [|e es (pre & post & Hes & Hpre & Hout & Hres)].
  - exists [], []. simpl. repeat split; auto. intros e [].
  - destruct (entry_match arn e) as [b|x] eqn:E.
    + exists (e :: pre), post. subst es.
      assert (Hscan : scan arn (e :: pre ++ post) []
                      = (((if b then [entry_line e] else [])
                          ++ fst (scan arn (pre ++ post) []))%list,
                         snd (scan arn (pre ++ post) []))).
      { simpl. rewrite E. destruct b.
        - now rewrite scan_stdout.
        - now destruct (scan arn (pre ++ post) []). }
      repeat split.
      * intros e' [<-|He']; [now exists b|auto].
      * change ((e :: pre) ++ post)%list with (e :: pre ++ post).
        rewrite Hscan. simpl fst. rewrite Hout. simpl filter.
        unfold qualifies at 2. rewrite E. now destruct b.
      * change ((e :: pre) ++ post)%list with (e :: pre ++ post).
        rewrite Hscan. exact Hres.
    + exists [], (e :: es). simpl. rewrite E. repeat split; auto.
      * intros e' [].
      * now exists x.
Qed.

End ResolverFacts.

(** X15: for the bare wildcard the resolver prints the line of every
    resource type of the catalog, in catalog order, and returns normally,
    whatever the templates are. *)
Theorem X15_star_lists_catalog (iam_definition : list Service) :
  get_resource_type_from_arn iam_definition "*"
  = (map entry_line (entries iam_definition), Ok tt).
Proof.
  unfold get_resource_type_from_arn. rewrite for_services_scan.
  assert (Hall : forall e, entry_match "*" e = Ok true) by reflexivity.
  rewrite scan_returns by (intros e _; exists true; apply Hall).
  rewrite filter_all; [reflexivity|].
  intros e _. unfold qualifies. now rewrite Hall.
Qed.

(** X16: the resolver on two catalogs put end to end prints what it prints
    on the first followed by what it prints on the second, unless the first
    one ends with an exception, which is then the outcome. *)
Theorem X16_catalog_concat (c1 c2 : list Service) (a : string) :
  get_resource_type_from_arn (c1 ++ c2) a
  = match get_resource_type_from_arn c1 a with
    | (stdout, Ok _) =>
        ((stdout ++ fst (get_resource_type_from_arn c2 a))%list,
         snd (get_resource_type_from_arn c2 a))
    | (stdout, Raise e) => (stdout, Raise e)
    end.
Proof.
  unfold get_resource_type_from_arn. rewrite !for_services_scan.
  unfold entries. rewrite flat_map_app. fold (entries c1) (entries c2).
  rewrite scan_app.
  destruct (scan a (entries c1) []) as [stdout [u|e]]; [|reflexivity].
  apply scan_stdout.
Qed.

(** X17: when the input arn is well-formed and every template of the
    catalog is well-formed after placeholder substitution, the resolver
    raises nothing and prints exactly the lines of the qualifying entries,
    in catalog order. *)
Theorem X17_well_formed_catalog (iam_definition : list Service) (a : string) :
  well_formed a ->
  (forall e, In e (entries iam_definition) -> well_formed (normalized (snd e))) ->
  get_resource_type_from_arn iam_definition a
  = (map entry_line (filter (qualifies a) (entries iam_definition)), Ok tt).
Proof.
  intros Ha Hcat. unfold get_resource_type_from_arn.
  rewrite for_services_scan, scan_returns; [reflexivity|].
  intros e He. unfold entry_match. fold (normalized (snd e)).
  rewrite (is_arn_match_well_formed _ _ _ Ha (Hcat e He)).
  destruct (bucket_exclusion _ _); [now exists false|].
  destruct (prefix_compatible _ _); [|now exists false].
  apply id_match_returns.
Qed.

Lemma X17_well_formed_catalog_witness :
  get_resource_type_from_arn sample_catalog "arn:aws:s3:::mybucket/key"
  = (["s3 - object"; "s3 - bucket"], Ok tt).
Proof.
  apply (X17_well_formed_catalog sample_catalog "arn:aws:s3:::mybucket/key").
  - unfold well_formed. simpl. lia.
  - intros e He. simpl in He.
    repeat (destruct He as [<- | He]; [unfold well_formed; simpl; lia|]).
    contradiction.
Defined.

(** X18: whatever the catalog and the arn, the resolver prints the lines
    of the qualifying entries of an initial part of the catalog on which
    the matcher raises nothing, and nothing else: either that part is the
    whole catalog and the resolver returns normally, or the next entry is
    one on which the matcher raises and the resolver ends with that
    exception. *)
Theorem X18_resolver_outcome (iam_definition : list Service) (a : string) :
  exists pre post,
    entries iam_definition = (pre ++ post)%list
    /\ (forall e, In e pre -> returns (entry_match a e))
    /\ fst (get_resource_type_from_arn iam_definition a)
       = map entry_line (filter (qualifies a) pre)
    /\ match post with
       | [] => snd (get_resource_type_from_arn iam_definition a) = Ok tt
       | e :: _ => exists x, entry_match a e = Raise x
                             /\ snd (get_resource_type_from_arn iam_definition a) = Raise x
       end.
Proof.
  unfold get_resource_type_from_arn. rewrite for_services_scan.
  apply scan_outcome.
Qed.
